(** * setup-swift: the Windows install pipeline ([src/windows-install.ts])

    A shallow embedding of [install], [download], [getVsToolsPath],
    [vsRequirement], [setupSupportFiles] and [setupRequiredTools], written in
    a small trace-and-exception monad over an explicit model of the
    environment (the Actions toolkit, the file system, child processes and
    the Node runtime), followed by the properties of the pipeline. *)

From Stdlib Require Import String Ascii List ZArith NArith Bool Lia.
From Stdlib Require Import DecimalString.
Import ListNotations.
Open Scope string_scope.
Set Warnings "-register-all".

(** ** JavaScript strings

    A string is a sequence of code units; [Ascii.ascii] covers the code
    units below 256, which is all the program's own literals use. *)

Module Js.

(** The double-quote character, written by its decimal code. *)
Definition dq : string := String "034"%char EmptyString.

(** A template [`"${s}"`]. *)
Definition quoted (s : string) : string := dq ++ s ++ dq.

(** [WhiteSpace] and [LineTerminator] code units below 256: TAB, LF, VT, FF,
    CR, SP and NBSP. *)
Definition is_space (c : ascii) : bool :=
  let n := nat_of_ascii c in
  ((9 <=? n)%nat && (n <=? 13)%nat) || (n =? 32)%nat || (n =? 160)%nat.

Fixpoint trimStart (s : string) : string :=
  match s with
  | EmptyString => EmptyString
  | String c r => if is_space c then trimStart r else s
  end.

(** [trimEnd] removes the longest all-space suffix. *)
Fixpoint trimEnd (s : string) : string :=
  match s with
  | EmptyString => EmptyString
  | String c r =>
      match trimEnd r with
      | EmptyString => if is_space c then EmptyString else String c EmptyString
      | r' => String c r'
      end
  end.

(** [String.prototype.trim]. *)
Definition trim (s : string) : string := trimEnd (trimStart s).

(** Every code unit of the string is white space (the empty string
    included). *)
Fixpoint blank (s : string) : bool :=
  match s with
  | EmptyString => true
  | String c r => is_space c && blank r
  end.

(** [Array.prototype.join]. *)
Fixpoint join (sep : string) (l : list string) : string :=
  match l with
  | [] => EmptyString
  | [x] => x
  | x :: r => x ++ sep ++ join sep r
  end.

(** Number-to-string conversion of an integer, as a template literal
    performs it. *)
Definition string_of_Z (z : Z) : string :=
  NilZero.string_of_int (Z.to_int z).

(** The outcome of evaluating an expression or awaiting a promise: a value,
    or a thrown exception (a rejected promise) carrying its description. *)
Inductive res (A : Type) : Type :=
| Returns (a : A)
| Throws (e : string).
Arguments Returns {A} a.
Arguments Throws {A} e.

(** [Array.prototype.reduce] called without an initial value: the first
    element seeds the accumulator and the callback runs on the others; an
    empty array is a [TypeError]. *)
Definition reduce {A : Type} (f : A -> A -> A) (l : list A) : res A :=
  match l with
  | [] => Throws "TypeError: Reduce of empty array with no initial value"
  | x :: r => Returns (fold_left f r x)
  end.

(** Values that [JSON.parse] can produce, and [undefined].  A number is kept
    as the string its number-to-string conversion yields ([-0] prints as
    [0]). *)
Inductive value : Type :=
| VUndefined
| VNull
| VBool (b : bool)
| VNum (repr : string)
| VStr (s : string)
| VArr (elems : list value)
| VObj (props : list (string * value)).

(** A string used where a value is expected. *)
Coercion VStr : string >-> value.

(** A possibly absent string ([string | undefined]) as a value. *)
Definition of_option (o : option string) : value :=
  match o with
  | Some s => VStr s
  | None => VUndefined
  end.

Fixpoint lookup (k : string) (props : list (string * value)) : value :=
  match props with
  | [] => VUndefined
  | (k', v) :: r => if String.eqb k k' then v else lookup k r
  end.

(** Property read [v.k] for a key [k] that no prototype defines (the
    program reads [installationPath], [properties] and
    [setupEngineFilePath]): reading from [undefined] or [null] throws. *)
Definition get (v : value) (k : string) : res value :=
  match v with
  | VUndefined =>
      Throws ("TypeError: Cannot read properties of undefined (reading '" ++ k ++ "')")
  | VNull =>
      Throws ("TypeError: Cannot read properties of null (reading '" ++ k ++ "')")
  | VObj props => Returns (lookup k props)
  | _ => Returns VUndefined
  end.

(** Indexed read [v[0]]. *)
Definition index0 (v : value) : res value :=
  match v with
  | VUndefined => Throws "TypeError: Cannot read properties of undefined (reading '0')"
  | VNull => Throws "TypeError: Cannot read properties of null (reading '0')"
  | VArr elems => Returns (nth 0 elems VUndefined)
  | VObj props => Returns (lookup "0" props)
  | VStr (String c _) => Returns (VStr (String c EmptyString))
  | _ => Returns VUndefined
  end.

(** [ToBoolean]. *)
Definition truthy (v : value) : bool :=
  match v with
  | VUndefined | VNull => false
  | VBool b => b
  | VNum repr => negb (String.eqb repr "0")
  | VStr s => negb (String.eqb s EmptyString)
  | VArr _ | VObj _ => true
  end.

(** Whether [ToString] yields a string for the value.  An object made by
    [JSON.parse] has no method of its own: when it has a property
    [toString] of its own, that property hides [Object.prototype.toString],
    no method yields a primitive, and the conversion throws; an array
    converts its elements, [undefined] and [null] apart. *)
Fixpoint converts (v : value) : bool :=
  match v with
  | VArr elems => forallb converts elems
  | VObj props =>
      negb (existsb (fun p => String.eqb (fst p) "toString") props)
  | _ => true
  end.

(** [ToString] of a value that converts. *)
Fixpoint toString (v : value) : string :=
  match v with
  | VUndefined => "undefined"
  | VNull => "null"
  | VBool true => "true"
  | VBool false => "false"
  | VNum repr => repr
  | VStr s => s
  | VArr elems =>
      join ","
        (map (fun e => match e with
                       | VUndefined | VNull => EmptyString
                       | _ => toString e
                       end) elems)
  | VObj _ => "[object Object]"
  end.

(** [`${v}`]: [ToString] as a template literal applies it to a value that
    [JSON.parse] produced. *)
Definition template (v : value) : res string :=
  if converts v then Returns (toString v)
  else Throws "TypeError: Cannot convert object to primitive value".

End Js.
Export Js.

(** ** The data model of the program *)

(** [System] of [./os]; the installer reads its [name] only. *)
Module System.
Record t : Type := mk { name : string }.
End System.

(** [Package] of [./swift-versions]. *)
Module Package.
Record t : Type := mk { url : string; name : string; version : string }.
End Package.

(** [VsRequirement]. *)
Module VsRequirement.
Record t : Type := mk { version : string; components : list string }.
End VsRequirement.

(** ** The environment

    What a child process did: the chunks it wrote, in order, and the exit
    code [exec] resolves with, or the rejection of the promise. *)
Inductive chunk : Type :=
| Stdout (data : string)
| Stderr (data : string).

Record exec_result : Type := mk_exec_result {
  output : list chunk;
  status : res Z
}.

(** Every call that leaves the program, with its arguments and its answer,
    in the order the calls are made. *)
Inductive event : Type :=
| CoreError (message : string)
| CoreDebug (message : string)
| CoreInfo (message : string)
| CoreSetFailed (message : string)
| CoreAddPath (inputPath : string)
| CacheFind (toolName versionSpec : string) (r : res (option string))
| CacheFile (sourceFile targetFile tool version : string) (r : res string)
| DownloadTool (url : string) (r : res string)
| SetupKeys (r : res unit)
| Verify (signaturePath packagePath : string) (r : res unit)
| Exec (commandLine : string) (args : list string) (verbatim : bool)
       (r : exec_result)
| ExistsSync (p : string) (b : bool)
| Which (tool : string) (r : res string).

(** The world the program runs in.  The calls that reach outside the process
    take a clock, the number of events of the run so far, so that the same
    call may be answered differently at different moments of a run.
    [swiftPackage_], [setupKeys_] and [verify_] stand for the functions of
    [./swift-versions] and [./gpg], which the installer imports; [join_],
    [dirname_], [parse_] and [stringify_] for [path.join] and [path.dirname]
    on strings, [JSON.parse], and [JSON.stringify] on defined values.
    [exec_] is what the promise of [exec] settles with, an exit code or a
    rejection; the worlds in which [exec] settles as [@actions/exec] does for
    the program are those of [exec_rejects_nonzero] below, and what holds in
    every world holds in these. *)
Record World : Type := mk_World {
  platform : string;
  env : string -> option string;
  swiftPackage_ : string -> System.t -> res Package.t;
  setupKeys_ : nat -> res unit;
  verify_ : nat -> string -> string -> res unit;
  find_ : nat -> string -> string -> res (option string);
  cacheFile_ : nat -> string -> string -> string -> string -> res string;
  downloadTool_ : nat -> string -> res string;
  exec_ : nat -> string -> list string -> bool -> exec_result;
  existsSync_ : nat -> string -> bool;
  which_ : nat -> string -> res string;
  join_ : list string -> string;
  dirname_ : string -> string;
  parse_ : string -> res value;
  stringify_ : value -> string
}.

(** ** The monad: a reader of the world and of the clock, a writer of
    events, and exceptions

    A computation started at clock [t] yields the events it adds and its
    outcome. *)

Definition M (A : Type) : Type := World -> nat -> list event * res A.

Definition ret {A : Type} (a : A) : M A := fun _ _ => ([], Returns a).

Definition throw {A : Type} (e : string) : M A := fun _ _ => ([], Throws e).

Definition bind {A B : Type} (m : M A) (k : A -> M B) : M B :=
  fun w t =>
    match m w t with
    | (d, Returns a) =>
        let r := k a w (length d + t)%nat in ((d ++ fst r)%list, snd r)
    | (d, Throws e) => (d, Throws e)
    end.

(** [try { m } catch { h }]. *)
Definition try_catch {A : Type} (m h : M A) : M A :=
  fun w t =>
    match m w t with
    | (d, Returns a) => (d, Returns a)
    | (d, Throws _) =>
        let r := h w (length d + t)%nat in ((d ++ fst r)%list, snd r)
    end.

(** A synchronous expression that may throw. *)
Definition lift {A : Type} (r : res A) : M A := fun _ _ => ([], r).

(** A call to the outside that may throw: the answer is read from the world
    at the current clock and the call is recorded with it. *)
Definition call {A : Type} (answer : World -> nat -> res A)
  (ev : res A -> event) : M A :=
  fun w t => let r := answer w t in ([ev r], r).

(** A call to the outside that always returns. *)
Definition ask {A : Type} (answer : World -> nat -> A) (ev : A -> event) : M A :=
  fun w t => let a := answer w t in ([ev a], Returns a).

(** A call made for its effect alone. *)
Definition emit (ev : event) : M unit := fun _ _ => ([ev], Returns tt).

(** A read of the process's own state or of a pure library function. *)
Definition reads {A : Type} (f : World -> A) : M A :=
  fun w _ => ([], Returns (f w)).

Declare Scope monad_scope.
Delimit Scope monad_scope with monad.
Notation "x <- m ;; k" := (bind m (fun x => k))
  (at level 61, m at next level, right associativity) : monad_scope.
Notation "m ;; k" := (bind m (fun _ => k))
  (at level 61, right associativity) : monad_scope.
Open Scope monad_scope.

(** [Array.prototype.forEach] with an effectful callback. *)
Fixpoint forEach {A : Type} (l : list A) (f : A -> M unit) : M unit :=
  match l with
  | [] => ret tt
  | x :: r => f x ;; forEach r f
  end.

(** [Promise.all] over two promises: both operations are started, in order,
    and the result is rejected as soon as one of them is. *)
Definition Promise_all {A B : Type} (m1 : M A) (m2 : M B) : M (A * B) :=
  fun w t =>
    let r1 := m1 w t in
    let r2 := m2 w (length (fst r1) + t)%nat in
    ((fst r1 ++ fst r2)%list,
     match snd r1, snd r2 with
     | Returns a, Returns b => Returns (a, b)
     | Throws e, _ => Throws e
     | _, Throws e => Throws e
     end).

(** The run of a program from the start of the job: its trace and its
    outcome. *)
Definition run {A : Type} (m : M A) (w : World) : list event * res A := m w 0%nat.
Definition trace_of {A : Type} (m : M A) (w : World) : list event := fst (run m w).
Definition result_of {A : Type} (m : M A) (w : World) : res A := snd (run m w).

(** ** The [semver] package: strict parsing and [lt]

    A model of [new SemVer(version)] and [semver.lt] without the [loose]
    option: the grammar [v?MAJOR.MINOR.PATCH(-PRERELEASE)?(+BUILD)?] on the
    trimmed string, the numeric limits, and precedence (build metadata does
    not take part in it). *)
Module semver.

Definition is_digit (c : ascii) : bool :=
  let n := nat_of_ascii c in ((48 <=? n)%nat && (n <=? 57)%nat).

(** [[0-9A-Za-z-]] *)
Definition is_ident_char (c : ascii) : bool :=
  let n := nat_of_ascii c in
  is_digit c || ((65 <=? n)%nat && (n <=? 90)%nat)
  || ((97 <=? n)%nat && (n <=? 122)%nat) || (n =? 45)%nat.

Fixpoint all_chars (p : ascii -> bool) (s : string) : bool :=
  match s with
  | EmptyString => true
  | String c r => p c && all_chars p r
  end.

(** The text before the first occurrence of [c], and the text after it when
    there is one. *)
Fixpoint split_first (c : ascii) (s : string) : string * option string :=
  match s with
  | EmptyString => (EmptyString, None)
  | String a r =>
      if Ascii.eqb a c then (EmptyString, Some r)
      else let (x, y) := split_first c r in (String a x, y)
  end.

(** [String.prototype.split] on a separator of one code unit. *)
Fixpoint split (c : ascii) (s : string) : list string :=
  match s with
  | EmptyString => [EmptyString]
  | String a r =>
      if Ascii.eqb a c then EmptyString :: split c r
      else match split c r with
           | x :: l => String a x :: l
           | [] => [String a EmptyString]
           end
  end.

(** The number a string of decimal digits denotes. *)
Fixpoint digits_value (s : string) (acc : N) : N :=
  match s with
  | EmptyString => acc
  | String c r => digits_value r (10 * acc + (N_of_ascii c - 48))%N
  end.

(** [NUMERICIDENTIFIER]: [0|[1-9]\d*]. *)
Definition numeric_identifier (s : string) : bool :=
  match s with
  | EmptyString => false
  | String c r =>
      all_chars is_digit s && (negb (Ascii.eqb c "0"%char) || String.eqb r EmptyString)
  end.

(** [PRERELEASEIDENTIFIER]: a numeric identifier, or [\d*[a-zA-Z-][a-zA-Z0-9-]*]. *)
Definition prerelease_identifier (s : string) : bool :=
  numeric_identifier s
  || (all_chars is_ident_char s && negb (all_chars is_digit s)).

(** [BUILDIDENTIFIER]: [[0-9A-Za-z-]+]. *)
Definition build_identifier (s : string) : bool :=
  negb (String.eqb s EmptyString) && all_chars is_ident_char s.

Definition MAX_LENGTH : nat := 256.
Definition MAX_SAFE_INTEGER : N := 9007199254740991.

(** A parsed version; build metadata is dropped, as it takes no part in
    precedence. *)
Record SemVer : Type := mk {
  major : N;
  minor : N;
  patch : N;
  prerelease : list string
}.

Definition strip_v (s : string) : string :=
  match s with
  | String "v"%char r => r
  | _ => s
  end.

(** [new SemVer(version)]. *)
Definition parse (version : string) : res SemVer :=
  if (MAX_LENGTH <? String.length version)%nat then
    Throws "TypeError: version is longer than 256 characters"
  else
    let (mp, build) := split_first "+"%char (strip_v (trim version)) in
    let (main, pre) := split_first "-"%char mp in
    let build_ok :=
      match build with
      | None => true
      | Some b => forallb build_identifier (split "."%char b)
      end in
    let pre_ok :=
      match pre with
      | None => true
      | Some p => forallb prerelease_identifier (split "."%char p)
      end in
    match split "."%char main with
    | [a; b; c] =>
        if numeric_identifier a && numeric_identifier b && numeric_identifier c
           && pre_ok && build_ok
        then
          let x := digits_value a 0 in
          let y := digits_value b 0 in
          let z := digits_value c 0 in
          if (MAX_SAFE_INTEGER <? x)%N then Throws "TypeError: Invalid major version"
          else if (MAX_SAFE_INTEGER <? y)%N then Throws "TypeError: Invalid minor version"
          else if (MAX_SAFE_INTEGER <? z)%N then Throws "TypeError: Invalid patch version"
          else
            Returns (mk x y z
                       match pre with
                       | None => []
                       | Some p => split "."%char p
                       end)
        else Throws "TypeError: Invalid Version"
    | _ => Throws "TypeError: Invalid Version"
    end.

(** [/^[0-9]+$/] *)
Definition numeric (s : string) : bool :=
  all_chars is_digit s && negb (String.eqb s EmptyString).

(** [compareIdentifiers]: identifiers made of digits are compared as
    numbers and sort before the others, which are compared as strings.  The
    numbers are compared exactly; the library compares them as doubles, which
    is the same below 2^53. *)
Definition compareIdentifiers (a b : string) : comparison :=
  match numeric a, numeric b with
  | true, true => (digits_value a 0 ?= digits_value b 0)%N
  | true, false => Lt
  | false, true => Gt
  | false, false => String.compare a b
  end.

(** [comparePre] on two lists that are not both empty is decided by the
    first position where they differ; a list that ends first is smaller. *)
Fixpoint compareIdentifierLists (p q : list string) : comparison :=
  match p, q with
  | [], [] => Eq
  | [], _ :: _ => Lt
  | _ :: _, [] => Gt
  | a :: p', b :: q' =>
      match compareIdentifiers a b with
      | Eq => compareIdentifierLists p' q'
      | c => c
      end
  end.

(** [comparePre]: a version without prerelease is greater than one with. *)
Definition comparePre (v o : SemVer) : comparison :=
  match prerelease v, prerelease o with
  | _ :: _, [] => Lt
  | [], _ :: _ => Gt
  | p, q => compareIdentifierLists p q
  end.

Definition compareMain (v o : SemVer) : comparison :=
  match (major v ?= major o)%N with
  | Eq => match (minor v ?= minor o)%N with
          | Eq => (patch v ?= patch o)%N
          | c => c
          end
  | c => c
  end.

Definition compare (v o : SemVer) : comparison :=
  match compareMain v o with
  | Eq => comparePre v o
  | c => c
  end.

(** [semver.lt(a, b)]: both arguments are parsed, the first one first. *)
Definition lt (a b : string) : res bool :=
  match parse a with
  | Throws e => Throws e
  | Returns v =>
      match parse b with
      | Throws e => Throws e
      | Returns o =>
          Returns match compare v o with Lt => true | _ => false end
      end
  end.

End semver.

(** ** The libraries the installer calls *)

Module os.
Definition platform : M string := reads platform.
End os.

Module process.
(** [process.env[name]]. *)
Definition env (name : string) : M (option string) :=
  reads (fun w => env w name).
End process.

Module core.
Definition error (message : string) : M unit := emit (CoreError message).
Definition debug (message : string) : M unit := emit (CoreDebug message).
Definition info (message : string) : M unit := emit (CoreInfo message).
Definition setFailed (message : string) : M unit := emit (CoreSetFailed message).
Definition addPath (inputPath : string) : M unit := emit (CoreAddPath inputPath).
End core.

Module toolCache.
Definition find (toolName versionSpec : string) : M (option string) :=
  call (fun w t => find_ w t toolName versionSpec) (CacheFind toolName versionSpec).
Definition cacheFile (sourceFile targetFile tool version : string) : M string :=
  call (fun w t => cacheFile_ w t sourceFile targetFile tool version)
       (CacheFile sourceFile targetFile tool version).
Definition downloadTool (url : string) : M string :=
  call (fun w t => downloadTool_ w t url) (DownloadTool url).
End toolCache.

Module fs.
Definition existsSync (p : string) : M bool :=
  ask (fun w t => existsSync_ w t p) (ExistsSync p).
End fs.

Module io.
(** [io.which(tool, true)]: throws when the tool is not on the search path. *)
Definition which (tool : string) : M string :=
  call (fun w t => which_ w t tool) (Which tool).
End io.

Module path.
(** The arguments that are strings, when all are. *)
Fixpoint strings (args : list value) : option (list string) :=
  match args with
  | [] => Some []
  | VStr s :: r => option_map (cons s) (strings r)
  | _ :: _ => None
  end.

(** [path.join(...args)]: an argument that is not a string is a
    [TypeError]. *)
Definition join (args : list value) : M string :=
  match strings args with
  | Some l => reads (fun w => join_ w l)
  | None => throw "TypeError [ERR_INVALID_ARG_TYPE]: The path argument must be of type string"
  end.

(** [path.dirname(p)] *)
Definition dirname (p : string) : M string := reads (fun w => dirname_ w p).
End path.

Module JSON.
Definition parse (text : string) : M value :=
  fun w _ => ([], parse_ w text).
(** [`${JSON.stringify(v)}`]: [JSON.stringify(undefined)] is [undefined]. *)
Definition stringify (v : value) : M string :=
  match v with
  | VUndefined => ret "undefined"
  | _ => reads (fun w => stringify_ w v)
  end.
End JSON.

(** [./gpg] *)
Definition setupKeys : M unit := call setupKeys_ SetupKeys.
Definition verify (signaturePath packagePath : string) : M unit :=
  call (fun w t => verify_ w t signaturePath packagePath)
       (Verify signaturePath packagePath).

(** [./swift-versions] *)
Definition swiftPackage (version : string) (system : System.t) : M Package.t :=
  fun w _ => ([], swiftPackage_ w version system).

(** The listeners of an [exec] call see the chunks in the order the process
    writes them; the variables they capture are the state [V] they thread. *)
Fixpoint feed {V : Type} (listeners : chunk -> V -> M V) (cs : list chunk)
  (s : V) : M V :=
  match cs with
  | [] => ret s
  | c :: cs' => s' <- listeners c s ;; feed listeners cs' s'
  end.

(** [exec(commandLine, args, options)] of [@actions/exec]: the promise
    settles, with the exit code or a rejection, after the last chunk. *)
Definition exec {V : Type} (commandLine : string) (args : list string)
  (verbatim : bool) (listeners : chunk -> V -> M V) (s0 : V) : M (Z * V) :=
  fun w t =>
    let r := exec_ w t commandLine args verbatim in
    let heard := feed listeners (output r) s0 w (S t) in
    (Exec commandLine args verbatim r :: fst heard,
     match snd heard, status r with
     | Returns s, Returns code => Returns (code, s)
     | Returns _, Throws e => Throws e
     | Throws e, _ => Throws e
     end).

(** [exec] without listeners: the exit code, or the rejection. *)
Definition exec0 (commandLine : string) (args : list string) (verbatim : bool)
  : M Z :=
  fun w t =>
    let r := exec_ w t commandLine args verbatim in
    ([Exec commandLine args verbatim r], status r).

(** The program never passes [ignoreReturnCode] to [exec], and
    [@actions/exec] then rejects the promise when the process exits with a
    code other than 0, with an error that gives the code (and names the tool
    of the command line).  [exited] is what the promise settles with for a
    process that wrote [out] and exited with [exitCode]. *)
Definition exited (commandLine : string) (out : list chunk) (exitCode : Z)
  : exec_result :=
  mk_exec_result out
    (if (exitCode =? 0)%Z then Returns 0%Z
     else Throws ("Error: The process '" ++ commandLine
                  ++ "' failed with exit code " ++ string_of_Z exitCode)).

(** The worlds of the program: [exec] resolves with no other code than 0. *)
Definition exec_rejects_nonzero (w : World) : Prop :=
  forall t commandLine args verbatim code,
    status (exec_ w t commandLine args verbatim) = Returns code -> code = 0%Z.

(** ** The installer ([src/windows-install.ts]) *)

(** What [download] resolves with. *)
Record Download : Type := mk_Download {
  exe : string;
  signature : string;
  name : string
}.

Definition download (pkg : Package.t) : M Download :=
  core.debug "Downloading Swift for windows" ;;
  r <- Promise_all (toolCache.downloadTool (Package.url pkg))
                   (toolCache.downloadTool (Package.url pkg ++ ".sig")) ;;
  core.debug "Swift download complete" ;;
  ret (mk_Download (fst r) (snd r) (Package.name pkg)).

(** The test [if (VSWHERE_PATH)]: the variable is set and not empty. *)
Definition given (o : option string) : bool :=
  match o with
  | Some s => negb (String.eqb s EmptyString)
  | None => false
  end.

(** get vswhere and vs_installer paths *)
Definition getVsToolsPath : M string :=
  VSWHERE_PATH <- process.env "VSWHERE_PATH" ;;
  vswhereToolExe <-
    (if given VSWHERE_PATH then
       core.debug ("Using given vswhere-path: " ++ toString (of_option VSWHERE_PATH)) ;;
       path.join [of_option VSWHERE_PATH; VStr "vswhere.exe"]
     else
       try_catch
         (vsWhereInPath <- io.which "vswhere" ;;
          core.debug ("Found tool in PATH: " ++ vsWhereInPath) ;;
          ret vsWhereInPath)
         (programFiles <- process.env "ProgramFiles(x86)" ;;
          fallback <- path.join [of_option programFiles;
                                 VStr "Microsoft Visual Studio\Installer\vswhere.exe"] ;;
          core.debug ("Trying Visual Studio-installed path: " ++ fallback) ;;
          ret fallback)) ;;
  present <- fs.existsSync vswhereToolExe ;;
  if negb present then
    core.setFailed "Action requires the path to where vswhere.exe exists" ;;
    throw "Error"
  else ret vswhereToolExe.

(** Setup different version and component requirement based on swift
    versions if required *)
Definition vsRequirement (pkg : Package.t) : VsRequirement.t :=
  VsRequirement.mk "16"
    [ "Microsoft.VisualStudio.Component.VC.Tools.x86.x64";
      "Microsoft.VisualStudio.Component.Windows10SDK.17763" ].

Definition copyCommands : string :=
  Js.join "&&"
    [ "copy /Y %SDKROOT%\usr\share\ucrt.modulemap "
        ++ quoted "%UniversalCRTSdkDir%\Include\%UCRTVersion%\ucrt\module.modulemap";
      "copy /Y %SDKROOT%\usr\share\visualc.modulemap "
        ++ quoted "%VCToolsInstallDir%\include\module.modulemap";
      "copy /Y %SDKROOT%\usr\share\visualc.apinotes "
        ++ quoted "%VCToolsInstallDir%\include\visualc.apinotes";
      "copy /Y %SDKROOT%\usr\share\winsdk.modulemap "
        ++ quoted "%UniversalCRTSdkDir%\Include\%UCRTVersion%\um\module.modulemap" ].

(** Do swift version based additional support files setup *)
Definition setupSupportFiles (pkg : Package.t) (vsInstallPath : value) : M unit :=
  older <- lift (semver.lt (Package.version pkg) "5.4.2") ;;
  if older then
    nativeToolsScriptx86 <-
      path.join [vsInstallPath; VStr "VC\Auxiliary\Build\vcvars32.bat"] ;;
    code <- exec0 "cmd /c"
              [dq ++ quoted nativeToolsScriptx86 ++ "&&" ++ copyCommands ++ dq]
              true ;;
    core.info ("Ran command for swift and exited with code: " ++ string_of_Z code)
  else ret tt.

(** The listeners [setupRequiredTools] passes to [exec]: standard output is
    appended to [payload], standard error goes to [core.error]. *)
Definition payload_listeners (c : chunk) (payload : string) : M string :=
  match c with
  | Stdout data => ret (payload ++ data)
  | Stderr data => core.error data ;; ret payload
  end.

(** The argument string the callback of [reduce] builds. *)
Definition add_component (previous current : string) : string :=
  previous ++ " --add " ++ quoted current.

(** set up required tools for swift on windows *)
Definition setupRequiredTools (pkg : Package.t) : M unit :=
  vswhereExe <- getVsToolsPath ;;
  let requirement := vsRequirement pkg in
  let vsWhereExec :=
    "-products * " ++ "-format json -utf8 "
    ++ "-latest -version " ++ quoted (VsRequirement.version requirement) in
  r <- exec (quoted vswhereExe ++ " " ++ vsWhereExec) [] false
         payload_listeners EmptyString ;;
  let payload := snd r in
  core.info ("got payload: " ++ payload) ;;
  vsInstallations <- JSON.parse payload ;;
  shown <- JSON.stringify vsInstallations ;;
  core.info ("array: " ++ shown) ;;
  parsed <- JSON.parse payload ;;
  vs <- lift (index0 parsed) ;;
  shown' <- JSON.stringify vs ;;
  core.info ("obj: " ++ shown') ;;
  installationPath <- lift (get vs "installationPath") ;;
  if negb (truthy installationPath) then
    core.setFailed ("Unable to find any visual studio installation for version: "
                    ++ VsRequirement.version requirement ++ ".")
  else
    installationPath <- lift (get vs "installationPath") ;;
    installPath <- lift (template installationPath) ;;
    added <- lift (reduce add_component (VsRequirement.components requirement)) ;;
    let vsInstallerExec :=
      "modify  --installPath " ++ quoted installPath ++ " "
      ++ added ++ " --quiet" in
    properties <- lift (get vs "properties") ;;
    setupEngineFilePath <- lift (get properties "setupEngineFilePath") ;;
    engine <- lift (template setupEngineFilePath) ;;
    code <- exec0 (quoted engine ++ " " ++ vsInstallerExec) [] false ;;
    if negb (code =? 0)%Z then
      core.setFailed
        ("Visual Studio installer failed to install required components with exit code: "
         ++ string_of_Z code ++ ".")
    else
      installationPath <- lift (get vs "installationPath") ;;
      setupSupportFiles pkg installationPath.

(** The test [swiftPath === null || swiftPath.trim().length == 0]. *)
Definition cache_miss (swiftPath : option string) : bool :=
  match swiftPath with
  | None => true
  | Some p => (String.length (trim p) =? 0)%nat
  end.

(** [process.env.SystemDrive ?? "C:"] *)
Definition systemDrive (w : World) : string :=
  match env w "SystemDrive" with
  | Some d => d
  | None => "C:"
  end.

Definition swiftLibPath (w : World) : string :=
  join_ w [systemDrive w; "Library"].

Definition swiftInstallPath (w : World) : string :=
  join_ w [swiftLibPath w; "Developer"; "Toolchains";
           "unknown-Asserts-development.xctoolchain"; "usr\bin"].

Definition additionalPaths (w : World) : list string :=
  [ join_ w [swiftLibPath w; "Swift-development\bin"];
    join_ w [swiftLibPath w; "icu-67\usr\bin"] ].

Definition install (version : string) (system : System.t) : M unit :=
  p <- os.platform ;;
  if negb (String.eqb p "win32") then
    core.error "Trying to run windows installer on non-windows os"
  else
    swiftPkg <- swiftPackage version system ;;
    found <- toolCache.find ("swift-" ++ System.name system) version ;;
    swiftPath <-
      (if cache_miss found then
         core.debug "No cached installer found" ;;
         setupKeys ;;
         d <- download swiftPkg ;;
         verify (signature d) (exe d) ;;
         exePath <- toolCache.cacheFile (exe d) (Package.name swiftPkg)
                      ("swift-" ++ System.name system) version ;;
         path.join [VStr exePath; VStr (Package.name swiftPkg)]
       else
         core.debug "Cached installer found" ;;
         ret (toString (of_option found))) ;;
    core.debug "Running installer" ;;
    (* the [options] object with the two listeners is built here and is not
       passed to [exec] *)
    code <- exec0 (quoted swiftPath ++ " -q") [] false ;;
    drive <- process.env "SystemDrive" ;;
    let systemDrive := match drive with Some d => d | None => "C:" end in
    swiftLibPath <- path.join [VStr systemDrive; VStr "Library"] ;;
    swiftInstallPath <-
      path.join [VStr swiftLibPath; VStr "Developer"; VStr "Toolchains";
                 VStr "unknown-Asserts-development.xctoolchain"; VStr "usr\bin"] ;;
    failed <- (if negb (code =? 0)%Z then ret true
               else present <- fs.existsSync swiftInstallPath ;;
                    ret (negb present)) ;;
    if (failed : bool) then
      core.setFailed ("Swift installer failed with exit code: " ++ string_of_Z code)
    else
      core.addPath swiftInstallPath ;;
      extra1 <- path.join [VStr swiftLibPath; VStr "Swift-development\bin"] ;;
      extra2 <- path.join [VStr swiftLibPath; VStr "icu-67\usr\bin"] ;;
      forEach [extra1; extra2] core.addPath ;;
      core.debug ("Swift installed at " ++ quoted swiftInstallPath) ;;
      setupRequiredTools swiftPkg.

(** ** The earlier revision of the tool lookup ([unnamed/part_001]) *)

Module Earlier.

(** What [getVsWherePath] resolves with (the interface [VisualStudio] of
    that revision). *)
Record VisualStudio : Type := mk { vswhere : string; vsinstaller : string }.

Definition getVsWherePath : M VisualStudio :=
  VSWHERE_PATH <- process.env "VSWHERE_PATH" ;;
  vswhereToolExe <-
    (if given VSWHERE_PATH then
       core.debug ("Using given vswhere-path: " ++ toString (of_option VSWHERE_PATH)) ;;
       path.join [of_option VSWHERE_PATH; VStr "vswhere.exe"]
     else
       try_catch
         (vsWhereInPath <- io.which "vswhere" ;;
          core.debug ("Found tool in PATH: " ++ vsWhereInPath) ;;
          ret vsWhereInPath)
         (programFiles <- process.env "ProgramFiles(x86)" ;;
          fallback <- path.join [of_option programFiles;
                                 VStr "Microsoft Visual Studio\Installer\vswhere.exe"] ;;
          core.debug ("Trying Visual Studio-installed path: " ++ fallback) ;;
          ret fallback)) ;;
  directory <- path.dirname vswhereToolExe ;;
  vsinstallerToolExe <- path.join [VStr directory; VStr "vs_installer.exe"] ;;
  missing <- (present <- fs.existsSync vswhereToolExe ;;
              if negb present then ret true
              else present' <- fs.existsSync vsinstallerToolExe ;;
                   ret (negb present')) ;;
  if (missing : bool) then
    core.setFailed
      "Action requires the path to where vswhere.exe and vs_installer.exe exists" ;;
    throw "Error"
  else ret (mk vswhereToolExe vsinstallerToolExe).

(** The interface [VsRequirement] of that revision. *)
Module VsRequirement.
Record t : Type := mk { versionRange : string; components : list string }.
End VsRequirement.

Definition vsRequirement (pkg : Package.t) : VsRequirement.t :=
  VsRequirement.mk "[16,17)"
    [ "Microsoft.VisualStudio.Component.VC.Tools.x86.x64";
      "Microsoft.VisualStudio.Component.Windows10SDK.17763" ].

(** The listener that revision's [setupRequiredTools] passes to [exec]: each
    chunk of the standard output, trimmed, replaces [vsInstallPath]; the
    standard error has no listener. *)
Definition path_listeners (c : chunk) (vsInstallPath : string) : M string :=
  match c with
  | Stdout data =>
      let installationPath := trim data in
      core.debug ("Found installation path: " ++ installationPath) ;;
      ret installationPath
  | Stderr _ => ret vsInstallPath
  end.

Definition setupRequiredTools (pkg : Package.t) : M unit :=
  vs <- getVsWherePath ;;
  let requirement := vsRequirement pkg in
  let vsWhereExec :=
    "-products * " ++ "-property installationPath "
    ++ "-latest -version " ++ quoted (VsRequirement.versionRange requirement) in
  r <- exec (quoted (vswhere vs) ++ " " ++ vsWhereExec) [] false
         path_listeners EmptyString ;;
  let vsInstallPath := snd r in
  added <- lift (reduce add_component (VsRequirement.components requirement)) ;;
  let vsInstallerExec :=
    "modify  --installPath " ++ quoted vsInstallPath ++ " "
    ++ added ++ " --quiet" in
  exec0 (quoted (vsinstaller vs) ++ " " ++ vsInstallerExec) [] false ;;
  ret tt.

(** That revision's [install]: the signature is not verified, the outcome of
    the installer is written to the log, and the provisioner is not
    called. *)
Definition install (version : string) (system : System.t) : M unit :=
  p <- os.platform ;;
  if negb (String.eqb p "win32") then
    core.error "Trying to run windows installer on non-windows os"
  else
    found <- toolCache.find ("swift-" ++ System.name system) version ;;
    swiftPath <-
      (if cache_miss found then
         core.debug "No cached installer found" ;;
         swiftPkg <- swiftPackage version system ;;
         d <- download swiftPkg ;;
         exePath <- toolCache.cacheFile (exe d) (Package.name swiftPkg)
                      ("swift-" ++ System.name system) version ;;
         path.join [VStr exePath; VStr (Package.name swiftPkg)]
       else
         core.debug "Cached installer found" ;;
         ret (toString (of_option found))) ;;
    core.debug "Running installer" ;;
    code <- exec0 (quoted swiftPath ++ " -q") [] false ;;
    result <- fs.existsSync
                "C:\Library\Developer\Toolchains\unknown-Asserts-development.xctoolchain\usr\bin" ;;
    drive <- process.env "SystemDrive" ;;
    let systemDrive := match drive with Some d => d | None => "C:" end in
    core.info ("exit code " ++ string_of_Z code
               ++ " and result " ++ toString (VBool result)
               ++ " and sysdrive: " ++ systemDrive) ;;
    swiftInstallPath <-
      path.join [VStr systemDrive; VStr "Library"; VStr "Developer";
                 VStr "Toolchains";
                 VStr "unknown-Asserts-development.xctoolchain"; VStr "usr\bin"] ;;
    core.addPath swiftInstallPath ;;
    core.debug ("Swift installed at " ++ quoted swiftInstallPath).

End Earlier.

(** ** The first revision ([src/windows-install.ts], lines 1 to 106) *)

Module Oldest.

(** That revision's [install]: the call of [verify] is commented out, the
    installer is started with [-q] as an argument of its own, and the
    directory registered is the text below, in which [%SystemDrive%] is not
    expanded. *)
Definition install (version : string) (system : System.t) : M unit :=
  p <- os.platform ;;
  if negb (String.eqb p "win32") then
    core.error "Trying to run windows installer on non-windows os"
  else
    found <- toolCache.find ("swift-" ++ System.name system) version ;;
    swiftPath <-
      (if cache_miss found then
         core.debug "No cached installer found" ;;
         swiftPkg <- swiftPackage version system ;;
         d <- download swiftPkg ;;
         exePath <- toolCache.cacheFile (exe d) (Package.name swiftPkg)
                      ("swift-" ++ System.name system) version ;;
         path.join [VStr exePath; VStr (Package.name swiftPkg)]
       else
         core.debug "Cached installer found" ;;
         ret (toString (of_option found))) ;;
    core.debug "Running installer" ;;
    exec0 (quoted swiftPath) ["-q"] false ;;
    core.addPath
      "%SystemDrive%\Library\Developer\Toolchains\unknown-Asserts-development.xctoolchain\usr\bin" ;;
    core.debug "Swift installed".

(** That revision's lookup: when the tool is missing the run is marked
    failed and the function returns, with [undefined]. *)
Definition getVsWherePath : M (option string) :=
  VSWHERE_PATH <- process.env "VSWHERE_PATH" ;;
  vswhereToolExe <-
    (if given VSWHERE_PATH then
       core.debug ("Using given vswhere-path: " ++ toString (of_option VSWHERE_PATH)) ;;
       path.join [of_option VSWHERE_PATH; VStr "vswhere.exe"]
     else
       try_catch
         (vsWhereInPath <- io.which "vswhere" ;;
          core.debug ("Found tool in PATH: " ++ vsWhereInPath) ;;
          ret vsWhereInPath)
         (programFiles <- process.env "ProgramFiles(x86)" ;;
          fallback <- path.join [of_option programFiles;
                                 VStr "Microsoft Visual Studio\Installer\vswhere.exe"] ;;
          core.debug ("Trying Visual Studio-installed path: " ++ fallback) ;;
          ret fallback)) ;;
  present <- fs.existsSync vswhereToolExe ;;
  if negb present then
    core.setFailed "setup-msbuild requires the path to where vswhere.exe exists" ;;
    ret None
  else ret (Some vswhereToolExe).

Definition vsVersionRange (pkg : Package.t) : string := "[16,17)".

(** That revision's [setupRequiredTools] builds the arguments of the query
    and starts nothing. *)
Definition setupRequiredTools (pkg : Package.t) : M unit :=
  vswhereToolExe <- getVsWherePath ;;
  let vsWhereExec :=
    "-products * " ++ "-property installationPath "
    ++ "-latest -version " ++ quoted (vsVersionRange pkg) in
  ret tt.

End Oldest.

(** ** Observations on a trace *)

(** The directories registered by [core.addPath], in the order of the
    calls. *)
Fixpoint registered (tr : list event) : list string :=
  match tr with
  | [] => []
  | CoreAddPath p :: r => p :: registered r
  | _ :: r => registered r
  end.

(** [core.addPath] of [@actions/core] puts the directory in front of the
    search path of the process; a search path is the list of its entries, and
    no other call of the program writes it. *)
Fixpoint PATH_after (tr : list event) (PATH : list string) : list string :=
  match tr with
  | [] => PATH
  | CoreAddPath p :: r => PATH_after r (p :: PATH)
  | _ :: r => PATH_after r PATH
  end.

Definition is_setFailed (e : event) : bool :=
  match e with
  | CoreSetFailed _ => true
  | _ => false
  end.

(** The run was marked failed. *)
Definition marked_failed (tr : list event) : bool := existsb is_setFailed tr.

(** How the first child process of the run ended: in [install] this is the
    installer. *)
Fixpoint first_exit (tr : list event) : option (res Z) :=
  match tr with
  | [] => None
  | Exec _ _ _ r :: _ => Some (status r)
  | _ :: r => first_exit r
  end.

(** The answer to the first existence test of the run: in [install] this is
    the test of the toolchain's binary directory. *)
Fixpoint first_seen (tr : list event) : option (string * bool) :=
  match tr with
  | [] => None
  | ExistsSync p b :: _ => Some (p, b)
  | _ :: r => first_seen r
  end.

(** ** Worlds to run the installer in *)

Module Fixture.

Definition windows : System.t := System.mk "windows".

(** The package descriptor [./swift-versions] builds for Windows. *)
Definition package (version : string) (system : System.t) : res Package.t :=
  let file := "swift-" ++ version ++ "-RELEASE-windows10.exe" in
  Returns (Package.mk
             ("https://swift.org/builds/swift-" ++ version
              ++ "-release/windows10/swift-" ++ version ++ "-RELEASE/" ++ file)
             file version).

Definition vswhere : string :=
  "C:\Program Files (x86)\Microsoft Visual Studio\Installer\vswhere.exe".

Definition vswhere_command : string :=
  quoted vswhere ++ " -products * -format json -utf8 -latest -version " ++ quoted "16".

Definition vs_path : string :=
  "C:\Program Files (x86)\Microsoft Visual Studio\2019\Enterprise".
Definition setup_engine : string :=
  "C:\Program Files (x86)\Microsoft Visual Studio\Installer\setup.exe".

(** One installation of Visual Studio 2019, as [vswhere] reports it, and the
    value the text parses to. *)
Definition vs2019_text : string :=
  "[{" ++ quoted "installationPath" ++ ":"
  ++ quoted "C:\\Program Files (x86)\\Microsoft Visual Studio\\2019\\Enterprise"
  ++ "," ++ quoted "properties" ++ ":{" ++ quoted "setupEngineFilePath" ++ ":"
  ++ quoted "C:\\Program Files (x86)\\Microsoft Visual Studio\\Installer\\setup.exe"
  ++ "}}]".
Definition vs2019 : value :=
  VArr [ VObj [ ("installationPath", VStr vs_path);
                ("properties", VObj [ ("setupEngineFilePath", VStr setup_engine) ]) ] ].

(** The part of a path before its last backslash. *)
Fixpoint parent (p : string) : string :=
  match p with
  | EmptyString => EmptyString
  | String c r =>
      if (existsb (Ascii.eqb "\"%char) (list_ascii_of_string r))
      then String c (parent r) else EmptyString
  end.

(** A Windows runner on which every step succeeds: the tool cache answers
    [cached], [vswhere] prints the text [query], which parses to [parsed],
    and [exec] resolves with the code [exit c] for a process started with
    the command line [c]. *)
Definition world (cached : option string) (query : string) (parsed : value)
  (exit : string -> Z) : World :=
  {| platform := "win32";
     env := fun name =>
              if String.eqb name "SystemDrive" then Some "C:"
              else if String.eqb name "ProgramFiles(x86)"
                   then Some "C:\Program Files (x86)"
                   else None;
     swiftPackage_ := package;
     setupKeys_ := fun _ => Returns tt;
     verify_ := fun _ _ _ => Returns tt;
     find_ := fun _ _ _ => Returns cached;
     cacheFile_ := fun _ _ _ tool version =>
                     Returns ("C:\hostedtoolcache\" ++ tool ++ "\" ++ version ++ "\x64");
     downloadTool_ := fun t _ => Returns ("C:\Temp\download-" ++ string_of_Z (Z.of_nat t));
     exec_ := fun _ commandLine _ _ =>
                mk_exec_result
                  (if String.eqb commandLine vswhere_command then [Stdout query] else [])
                  (Returns (exit commandLine));
     existsSync_ := fun _ _ => true;
     which_ := fun _ _ => Throws "Error: Unable to locate executable file: vswhere";
     join_ := Js.join "\";
     dirname_ := parent;
     parse_ := fun text =>
                 if String.eqb text query then Returns parsed
                 else Throws "SyntaxError: Unexpected token";
     stringify_ := fun _ => "<json>" |}.

(** Every process exits with code 0. *)
Definition all_succeed (commandLine : string) : Z := 0%Z.

(** The package of a release, on Windows. *)
Definition swift (version : string) : Package.t :=
  match package version windows with
  | Returns pkg => pkg
  | Throws _ => Package.mk EmptyString EmptyString version
  end.

(** The command line that modifies the installation [vs2019]. *)
Definition engine_command : string :=
  quoted setup_engine ++ " modify  --installPath " ++ quoted vs_path
  ++ " Microsoft.VisualStudio.Component.VC.Tools.x86.x64 --add "
  ++ quoted "Microsoft.VisualStudio.Component.Windows10SDK.17763" ++ " --quiet".

End Fixture.

(** The command line of the first child process of the run. *)
Fixpoint first_command (tr : list event) : option string :=
  match tr with
  | [] => None
  | Exec commandLine _ _ _ :: _ => Some commandLine
  | _ :: r => first_command r
  end.

(** The message [install] fails with after the installer has run. *)
Definition installer_failure (code : Z) : event :=
  CoreSetFailed ("Swift installer failed with exit code: " ++ string_of_Z code).

(** The world [w] with a tool cache that answers every lookup with
    [answer]. *)
Definition with_find (w : World) (answer : res (option string)) : World :=
  {| platform := platform w;
     env := env w;
     swiftPackage_ := swiftPackage_ w;
     setupKeys_ := setupKeys_ w;
     verify_ := verify_ w;
     find_ := fun _ _ _ => answer;
     cacheFile_ := cacheFile_ w;
     downloadTool_ := downloadTool_ w;
     exec_ := exec_ w;
     existsSync_ := existsSync_ w;
     which_ := which_ w;
     join_ := join_ w;
     dirname_ := dirname_ w;
     parse_ := parse_ w;
     stringify_ := stringify_ w |}.

(** Where the query tool is looked for, in the order of preference the
    specification gives: the directory in [VSWHERE_PATH] when the variable is
    given; else the tool found on the search path, a search made at clock
    [t]; else the installer directory under [ProgramFiles(x86)]. *)
Definition vswhere_location (w : World) (t : nat) : option string :=
  if given (env w "VSWHERE_PATH") then
    option_map (fun dir => join_ w [dir; "vswhere.exe"]) (env w "VSWHERE_PATH")
  else
    match which_ w t "vswhere" with
    | Returns p => Some p
    | Throws _ =>
        option_map
          (fun pf => join_ w [pf; "Microsoft Visual Studio\Installer\vswhere.exe"])
          (env w "ProgramFiles(x86)")
    end.

(** The number of positions of [s] at which [pat] occurs. *)
Fixpoint occurrences (pat s : string) : nat :=
  match s with
  | EmptyString => 0
  | String _ r => (if String.prefix pat s then 1 else 0) + occurrences pat r
  end.

(** The argument of [cmd /c] that [setupSupportFiles] builds. *)
Definition copy_argument (w : World) (vsInstallPath : string) : string :=
  dq ++ quoted (join_ w [vsInstallPath; "VC\Auxiliary\Build\vcvars32.bat"])
     ++ "&&" ++ copyCommands ++ dq.

(** The support-file copy is started. *)
Definition copy_runs (tr : list event) : Prop :=
  exists args r, In (Exec "cmd /c" args true r) tr.

(** The world [w] with a file system that answers every existence test at
    clock [t] for the path [p] with [answer t p]. *)
Definition with_existsSync (w : World) (answer : nat -> string -> bool) : World :=
  {| platform := platform w;
     env := env w;
     swiftPackage_ := swiftPackage_ w;
     setupKeys_ := setupKeys_ w;
     verify_ := verify_ w;
     find_ := find_ w;
     cacheFile_ := cacheFile_ w;
     downloadTool_ := downloadTool_ w;
     exec_ := exec_ w;
     existsSync_ := answer;
     which_ := which_ w;
     join_ := join_ w;
     dirname_ := dirname_ w;
     parse_ := parse_ w;
     stringify_ := stringify_ w |}.

(** The world [w] seen from a process that reports the platform [p]. *)
Definition with_platform (w : World) (p : string) : World :=
  {| platform := p;
     env := env w;
     swiftPackage_ := swiftPackage_ w;
     setupKeys_ := setupKeys_ w;
     verify_ := verify_ w;
     find_ := find_ w;
     cacheFile_ := cacheFile_ w;
     downloadTool_ := downloadTool_ w;
     exec_ := exec_ w;
     existsSync_ := existsSync_ w;
     which_ := which_ w;
     join_ := join_ w;
     dirname_ := dirname_ w;
     parse_ := parse_ w;
     stringify_ := stringify_ w |}.

(** The precedence of a version is below that of [5.4.2]: a smaller
    [major.minor.patch], or [5.4.2] itself with a prerelease tag. *)
Definition below_5_4_2 (v : semver.SemVer) : Prop :=
  (semver.major v < 5)%N \/
  (semver.major v = 5%N /\ (semver.minor v < 4)%N) \/
  (semver.major v = 5%N /\ semver.minor v = 4%N /\ (semver.patch v < 2)%N) \/
  (semver.major v = 5%N /\ semver.minor v = 4%N /\ semver.patch v = 2%N
   /\ semver.prerelease v <> []).

(** The message [getVsToolsPath] fails with. *)
Definition vswhere_missing : event :=
  CoreSetFailed "Action requires the path to where vswhere.exe exists".

(** The [--add] arguments the callback of [reduce] appends for the
    components it is called on. *)
Fixpoint added (components : list string) : string :=
  match components with
  | [] => EmptyString
  | c :: r => " --add " ++ quoted c ++ added r
  end.

(** A list that occurs, in order, inside another. *)
Inductive subseq {A : Type} : list A -> list A -> Prop :=
| subseq_nil : forall l, subseq [] l
| subseq_take : forall x s l, subseq s l -> subseq (x :: s) (x :: l)
| subseq_skip : forall x s l, subseq s l -> subseq s (x :: l).

(** Every event a computation adds satisfies [P], whatever the world and the
    clock. *)
Definition emits {A : Type} (P : event -> Prop) (m : M A) : Prop :=
  forall w t, Forall P (fst (m w t)).

(** The events of the build-tools provisioner: logging, the search for
    [vswhere], child processes, and its three failure messages. *)
Definition provisioning (e : event) : bool :=
  match e with
  | CoreError _ | CoreDebug _ | CoreInfo _ => true
  | Which _ _ | ExistsSync _ _ | Exec _ _ _ _ => true
  | CoreSetFailed message =>
      String.prefix "Action requires" message
      || String.prefix "Unable to find" message
      || String.prefix "Visual Studio installer failed" message
  | _ => false
  end.

(** The events whose use the signature check guards: caching a file and
    starting a process. *)
Definition guarded (e : event) : bool :=
  match e with
  | CacheFile _ _ _ _ _ | Exec _ _ _ _ => true
  | _ => false
  end.

(** The computation does not consult the tool cache's lookup. *)
Definition ignores_find {A : Type} (m : M A) : Prop :=
  forall w x t, m (with_find w x) t = m w t.

(** The run ended in the installer's failure: the failure message, with the
    exit code, is the last event, the run is marked failed, no directory was
    registered, and [install] returned. *)
Definition post_install_fatal (tr : list event) (result : res unit) (code : Z)
  : Prop :=
  In (installer_failure code) tr /\
  last tr (CoreDebug EmptyString) = installer_failure code /\
  marked_failed tr = true /\
  registered tr = [] /\
  result = Returns tt.

(** ** More observations on a trace *)

(** The events of the fetch-and-verify path. *)
Definition fetches (e : event) : bool :=
  match e with
  | SetupKeys _ | DownloadTool _ _ | Verify _ _ _ | CacheFile _ _ _ _ _ => true
  | _ => false
  end.

Definition is_download (e : event) : bool :=
  match e with
  | DownloadTool _ _ => true
  | _ => false
  end.

Definition is_verify (e : event) : bool :=
  match e with
  | Verify _ _ _ => true
  | _ => false
  end.

(** What a process wrote to its standard output, in order. *)
Fixpoint stdout_of (cs : list chunk) : string :=
  match cs with
  | [] => EmptyString
  | Stdout data :: r => data ++ stdout_of r
  | Stderr _ :: r => stdout_of r
  end.

(** The chunks a process wrote to its standard error, in order. *)
Fixpoint stderr_of (cs : list chunk) : list string :=
  match cs with
  | [] => []
  | Stdout _ :: r => stderr_of r
  | Stderr data :: r => data :: stderr_of r
  end.

(** How the child processes of a run ended, in the order they were
    started. *)
Fixpoint exits (tr : list event) : list (res Z) :=
  match tr with
  | [] => []
  | Exec _ _ _ r :: rest => status r :: exits rest
  | _ :: rest => exits rest
  end.

(** What the first child process of the run wrote to its standard output:
    in [setupRequiredTools] this is the query. *)
Fixpoint first_stdout (tr : list event) : option string :=
  match tr with
  | [] => None
  | Exec _ _ _ r :: _ => Some (stdout_of (output r))
  | _ :: rest => first_stdout rest
  end.

(** The events of the search for the query tool, its failure message
    included. *)
Definition locating (e : event) : bool :=
  match e with
  | CoreDebug _ | Which _ _ | ExistsSync _ _ => true
  | CoreSetFailed _ => true
  | _ => false
  end.

(** [`${JSON.stringify(v)}`] in the world [w]. *)
Definition shown (w : World) (v : value) : string :=
  match v with
  | VUndefined => "undefined"
  | _ => stringify_ w v
  end.

Definition is_info (e : event) : bool :=
  match e with
  | CoreInfo _ => true
  | _ => false
  end.

(** The child processes of a run, in the order they were started: command
    line, arguments, and whether the arguments are passed verbatim. *)
Fixpoint started (tr : list event) : list (string * list string * bool) :=
  match tr with
  | [] => []
  | Exec commandLine args verbatim _ :: rest =>
      (commandLine, args, verbatim) :: started rest
  | _ :: rest => started rest
  end.

Definition is_which (e : event) : bool :=
  match e with
  | Which _ _ => true
  | _ => false
  end.

(** The chunks a process wrote to its standard output, in order. *)
Fixpoint stdout_chunks (cs : list chunk) : list string :=
  match cs with
  | [] => []
  | Stdout data :: r => data :: stdout_chunks r
  | Stderr _ :: r => stdout_chunks r
  end.

(** The existence tests of a run and their answers, in order. *)
Fixpoint tests (tr : list event) : list (string * bool) :=
  match tr with
  | [] => []
  | ExistsSync p b :: rest => (p, b) :: tests rest
  | _ :: rest => tests rest
  end.

(** What the first child process of the run wrote. *)
Fixpoint first_output (tr : list event) : option (list chunk) :=
  match tr with
  | [] => None
  | Exec _ _ _ r :: _ => Some (output r)
  | _ :: rest => first_output rest
  end.

Definition is_keys (e : event) : bool :=
  match e with
  | SetupKeys _ => true
  | _ => false
  end.

(** The event is a call of [core.info] or of [core.error]. *)
Definition is_output (e : event) : bool :=
  match e with
  | CoreInfo _ | CoreError _ => true
  | _ => false
  end.

(** The messages the run was marked failed with, in order. *)
Fixpoint failures (tr : list event) : list string :=
  match tr with
  | [] => []
  | CoreSetFailed message :: rest => message :: failures rest
  | _ :: rest => failures rest
  end.


(** ** More worlds *)

(** The world [w] in which the set-up of the keys answers [answer]. *)
Definition with_setupKeys (w : World) (answer : res unit) : World :=
  {| platform := platform w;
     env := env w;
     swiftPackage_ := swiftPackage_ w;
     setupKeys_ := fun _ => answer;
     verify_ := verify_ w;
     find_ := find_ w;
     cacheFile_ := cacheFile_ w;
     downloadTool_ := downloadTool_ w;
     exec_ := exec_ w;
     existsSync_ := existsSync_ w;
     which_ := which_ w;
     join_ := join_ w;
     dirname_ := dirname_ w;
     parse_ := parse_ w;
     stringify_ := stringify_ w |}.

(** The world [w] in which the transfer of [url] answers [answer url]. *)
Definition with_downloadTool (w : World) (answer : string -> res string) : World :=
  {| platform := platform w;
     env := env w;
     swiftPackage_ := swiftPackage_ w;
     setupKeys_ := setupKeys_ w;
     verify_ := verify_ w;
     find_ := find_ w;
     cacheFile_ := cacheFile_ w;
     downloadTool_ := fun _ url => answer url;
     exec_ := exec_ w;
     existsSync_ := existsSync_ w;
     which_ := which_ w;
     join_ := join_ w;
     dirname_ := dirname_ w;
     parse_ := parse_ w;
     stringify_ := stringify_ w |}.

(** The world [w] in which the tool cache answers every caching with
    [answer]. *)
Definition with_cacheFile (w : World) (answer : res string) : World :=
  {| platform := platform w;
     env := env w;
     swiftPackage_ := swiftPackage_ w;
     setupKeys_ := setupKeys_ w;
     verify_ := verify_ w;
     find_ := find_ w;
     cacheFile_ := fun _ _ _ _ _ => answer;
     downloadTool_ := downloadTool_ w;
     exec_ := exec_ w;
     existsSync_ := existsSync_ w;
     which_ := which_ w;
     join_ := join_ w;
     dirname_ := dirname_ w;
     parse_ := parse_ w;
     stringify_ := stringify_ w |}.

(** The world [w] in which a process started with the command line [c]
    ends as [answer c]. *)
Definition with_exec (w : World) (answer : string -> exec_result) : World :=
  {| platform := platform w;
     env := env w;
     swiftPackage_ := swiftPackage_ w;
     setupKeys_ := setupKeys_ w;
     verify_ := verify_ w;
     find_ := find_ w;
     cacheFile_ := cacheFile_ w;
     downloadTool_ := downloadTool_ w;
     exec_ := fun _ commandLine _ _ => answer commandLine;
     existsSync_ := existsSync_ w;
     which_ := which_ w;
     join_ := join_ w;
     dirname_ := dirname_ w;
     parse_ := parse_ w;
     stringify_ := stringify_ w |}.

(** The world [w] in which [JSON.parse] answers [answer]. *)
Definition with_parse (w : World) (answer : string -> res value) : World :=
  {| platform := platform w;
     env := env w;
     swiftPackage_ := swiftPackage_ w;
     setupKeys_ := setupKeys_ w;
     verify_ := verify_ w;
     find_ := find_ w;
     cacheFile_ := cacheFile_ w;
     downloadTool_ := downloadTool_ w;
     exec_ := exec_ w;
     existsSync_ := existsSync_ w;
     which_ := which_ w;
     join_ := join_ w;
     dirname_ := dirname_ w;
     parse_ := answer;
     stringify_ := stringify_ w |}.

(** The world [w] with the environment [answer]. *)
Definition with_env (w : World) (answer : string -> option string) : World :=
  {| platform := platform w;
     env := answer;
     swiftPackage_ := swiftPackage_ w;
     setupKeys_ := setupKeys_ w;
     verify_ := verify_ w;
     find_ := find_ w;
     cacheFile_ := cacheFile_ w;
     downloadTool_ := downloadTool_ w;
     exec_ := exec_ w;
     existsSync_ := existsSync_ w;
     which_ := which_ w;
     join_ := join_ w;
     dirname_ := dirname_ w;
     parse_ := parse_ w;
     stringify_ := stringify_ w |}.

(** The world [w] in which the process started with the command line [c]
    writes [fst (process c)] and exits with the code [snd (process c)], and
    [exec] settles as [@actions/exec] does. *)
Definition with_processes (w : World) (process : string -> list chunk * Z)
  : World :=
  with_exec w (fun c => exited c (fst (process c)) (snd (process c))).

(** ** A program logic for the events a computation adds *)

Section Emits.

Variable P : event -> Prop.

Lemma emits_ret {A : Type} (a : A) : emits P (ret a).
Proof. intros w t; constructor. Qed.

Lemma emits_throw {A : Type} (e : string) : emits P (@throw A e).
Proof. intros w t; constructor. Qed.

Lemma emits_lift {A : Type} (r : res A) : emits P (lift r).
Proof. intros w t; constructor. Qed.

Lemma emits_reads {A : Type} (f : World -> A) : emits P (reads f).
Proof. intros w t; constructor. Qed.

Lemma emits_emit (ev : event) : P ev -> emits P (emit ev).
Proof. intros H w t; repeat constructor; exact H. Qed.

Lemma emits_call {A : Type} (answer : World -> nat -> res A) ev :
  (forall r, P (ev r)) -> emits P (call answer ev).
Proof. intros H w t; repeat constructor; apply H. Qed.

Lemma emits_ask {A : Type} (answer : World -> nat -> A) ev :
  (forall a, P (ev a)) -> emits P (ask answer ev).
Proof. intros H w t; repeat constructor; apply H. Qed.

Lemma emits_bind {A B : Type} (m : M A) (k : A -> M B) :
  emits P m -> (forall a, emits P (k a)) -> emits P (bind m k).
Proof.
  intros Hm Hk w t. unfold bind.
  specialize (Hm w t). destruct (m w t) as [d [a | e]]; simpl in *.
  - apply Forall_app; split; [exact Hm | apply Hk].
  - exact Hm.
Qed.

Lemma emits_try_catch {A : Type} (m h : M A) :
  emits P m -> emits P h -> emits P (try_catch m h).
Proof.
  intros Hm Hh w t. unfold try_catch.
  specialize (Hm w t). destruct (m w t) as [d [a | e]]; simpl in *.
  - exact Hm.
  - apply Forall_app; split; [exact Hm | apply Hh].
Qed.

Lemma emits_Promise_all {A B : Type} (m1 : M A) (m2 : M B) :
  emits P m1 -> emits P m2 -> emits P (Promise_all m1 m2).
Proof.
  intros H1 H2 w t. unfold Promise_all; simpl.
  apply Forall_app; split; [apply H1 | apply H2].
Qed.

Lemma emits_forEach {A : Type} (l : list A) (f : A -> M unit) :
  (forall x, emits P (f x)) -> emits P (forEach l f).
Proof.
  intros Hf. induction l as [| x l IH]; simpl.
  - apply emits_ret.
  - apply emits_bind; [apply Hf | intros _; exact IH].
Qed.

Lemma emits_feed {V : Type} (listeners : chunk -> V -> M V) cs :
  (forall c s, emits P (listeners c s)) ->
  forall s, emits P (feed listeners cs s).
Proof.
  intros Hl. induction cs as [| c cs IH]; intros s; simpl.
  - apply emits_ret.
  - apply emits_bind; [apply Hl | exact IH].
Qed.

Lemma emits_exec {V : Type} commandLine args verbatim
  (listeners : chunk -> V -> M V) (s0 : V) :
  (forall r, P (Exec commandLine args verbatim r)) ->
  (forall c s, emits P (listeners c s)) ->
  emits P (exec commandLine args verbatim listeners s0).
Proof.
  intros He Hl w t. unfold exec; simpl.
  constructor; [apply He | apply emits_feed, Hl].
Qed.

Lemma emits_exec0 commandLine args verbatim :
  (forall r, P (Exec commandLine args verbatim r)) ->
  emits P (exec0 commandLine args verbatim).
Proof.
  intros He w t. repeat constructor. apply He.
Qed.

Lemma emits_path_join args : emits P (path.join args).
Proof.
  unfold path.join. destruct (path.strings args); [apply emits_reads | apply emits_throw].
Qed.

Lemma emits_stringify v : emits P (JSON.stringify v).
Proof. destruct v; simpl; first [apply emits_ret | apply emits_reads]. Qed.

Lemma emits_parse text : emits P (JSON.parse text).
Proof. intros w t; constructor. Qed.

End Emits.

(** One step of a proof that a computation emits only [P]-events: the rule
    for the construct at the head, a case split on a test, or the fact about
    one event. *)
Ltac emits_step :=
  match goal with
  | |- forall _, _ => intro
  | |- emits _ (bind _ _) => apply emits_bind
  | |- emits _ (ret _) => apply emits_ret
  | |- emits _ (throw _) => apply emits_throw
  | |- emits _ (lift _) => apply emits_lift
  | |- emits _ (reads _) => apply emits_reads
  | |- emits _ (try_catch _ _) => apply emits_try_catch
  | |- emits _ (Promise_all _ _) => apply emits_Promise_all
  | |- emits _ (forEach _ _) => apply emits_forEach
  | |- emits _ (exec0 _ _ _) => apply emits_exec0
  | |- emits _ (exec _ _ _ _ _) => apply emits_exec
  | |- emits _ (path.join _) => apply emits_path_join
  | |- emits _ (JSON.stringify _) => apply emits_stringify
  | |- emits _ (JSON.parse _) => apply emits_parse
  | |- emits _ (emit _) => apply emits_emit
  | |- emits _ (call _ _) => apply emits_call
  | |- emits _ (ask _ _) => apply emits_ask
  | |- emits _ (if ?b then _ else _) => destruct b
  | |- emits _ (match ?x with _ => _ end) => destruct x
  end.

Ltac emits_all := repeat emits_step.

Lemma setupSupportFiles_provisioning pkg vsInstallPath :
  emits (fun e => provisioning e = true) (setupSupportFiles pkg vsInstallPath).
Proof.
  unfold setupSupportFiles, core.info. emits_all; reflexivity.
Qed.

Lemma getVsToolsPath_provisioning :
  emits (fun e => provisioning e = true) getVsToolsPath.
Proof.
  unfold getVsToolsPath, process.env, core.debug, core.setFailed, io.which,
    fs.existsSync.
  emits_all; reflexivity.
Qed.

Lemma setupRequiredTools_provisioning pkg :
  emits (fun e => provisioning e = true) (setupRequiredTools pkg).
Proof.
  unfold setupRequiredTools. apply emits_bind; [apply getVsToolsPath_provisioning |].
  intros vswhereExe. unfold payload_listeners, core.info, core.error, core.setFailed.
  emits_all; try reflexivity; try apply setupSupportFiles_provisioning.
Qed.

(** ** Computations that do not consult the cache lookup *)

Section IgnoresFind.

Lemma ignores_ret {A : Type} (a : A) : ignores_find (ret a).
Proof. intros w x t; reflexivity. Qed.

Lemma ignores_throw {A : Type} (e : string) : ignores_find (@throw A e).
Proof. intros w x t; reflexivity. Qed.

Lemma ignores_lift {A : Type} (r : res A) : ignores_find (lift r).
Proof. intros w x t; reflexivity. Qed.

Lemma ignores_emit (ev : event) : ignores_find (emit ev).
Proof. intros w x t; reflexivity. Qed.

Lemma ignores_reads {A : Type} (f : World -> A) :
  (forall w x, f (with_find w x) = f w) -> ignores_find (reads f).
Proof. intros H w x t; unfold reads; rewrite H; reflexivity. Qed.

Lemma ignores_call {A : Type} (answer : World -> nat -> res A) ev :
  (forall w x t, answer (with_find w x) t = answer w t) ->
  ignores_find (call answer ev).
Proof. intros H w x t; unfold call; rewrite H; reflexivity. Qed.

Lemma ignores_ask {A : Type} (answer : World -> nat -> A) ev :
  (forall w x t, answer (with_find w x) t = answer w t) ->
  ignores_find (ask answer ev).
Proof. intros H w x t; unfold ask; rewrite H; reflexivity. Qed.

Lemma ignores_bind {A B : Type} (m : M A) (k : A -> M B) :
  ignores_find m -> (forall a, ignores_find (k a)) -> ignores_find (bind m k).
Proof.
  intros Hm Hk w x t. unfold bind. rewrite Hm.
  destruct (m w t) as [d [a | e]]; [rewrite Hk |]; reflexivity.
Qed.

Lemma ignores_try_catch {A : Type} (m h : M A) :
  ignores_find m -> ignores_find h -> ignores_find (try_catch m h).
Proof.
  intros Hm Hh w x t. unfold try_catch. rewrite Hm.
  destruct (m w t) as [d [a | e]]; [| rewrite Hh]; reflexivity.
Qed.

Lemma ignores_feed {V : Type} (listeners : chunk -> V -> M V) cs :
  (forall c s, ignores_find (listeners c s)) ->
  forall s, ignores_find (feed listeners cs s).
Proof.
  intros Hl. induction cs as [| c cs IH]; intros s; simpl.
  - apply ignores_ret.
  - apply ignores_bind; [apply Hl | exact IH].
Qed.

Lemma ignores_exec {V : Type} commandLine args verbatim
  (listeners : chunk -> V -> M V) (s0 : V) :
  (forall c s, ignores_find (listeners c s)) ->
  ignores_find (exec commandLine args verbatim listeners s0).
Proof.
  intros Hl w x t. unfold exec. cbn [exec_ with_find].
  rewrite (ignores_feed listeners _ Hl s0 w x). reflexivity.
Qed.

Lemma ignores_exec0 commandLine args verbatim :
  ignores_find (exec0 commandLine args verbatim).
Proof. intros w x t; reflexivity. Qed.

Lemma ignores_path_join args : ignores_find (path.join args).
Proof.
  unfold path.join. destruct (path.strings args);
    [apply ignores_reads; reflexivity | apply ignores_throw].
Qed.

Lemma ignores_stringify v : ignores_find (JSON.stringify v).
Proof.
  destruct v; simpl;
    first [apply ignores_ret | apply ignores_reads; reflexivity].
Qed.

Lemma ignores_parse text : ignores_find (JSON.parse text).
Proof. intros w x t; reflexivity. Qed.

End IgnoresFind.

Ltac ignores_step :=
  match goal with
  | |- forall _, _ => intro
  | |- ignores_find (bind _ _) => apply ignores_bind
  | |- ignores_find (ret _) => apply ignores_ret
  | |- ignores_find (throw _) => apply ignores_throw
  | |- ignores_find (lift _) => apply ignores_lift
  | |- ignores_find (reads _) => apply ignores_reads
  | |- ignores_find (try_catch _ _) => apply ignores_try_catch
  | |- ignores_find (exec0 _ _ _) => apply ignores_exec0
  | |- ignores_find (exec _ _ _ _ _) => apply ignores_exec
  | |- ignores_find (path.join _) => apply ignores_path_join
  | |- ignores_find (JSON.stringify _) => apply ignores_stringify
  | |- ignores_find (JSON.parse _) => apply ignores_parse
  | |- ignores_find (emit _) => apply ignores_emit
  | |- ignores_find (call _ _) => apply ignores_call
  | |- ignores_find (ask _ _) => apply ignores_ask
  | |- ignores_find (if ?b then _ else _) => destruct b
  | |- ignores_find (match ?x with _ => _ end) => destruct x
  | |- _ = _ => reflexivity
  end.

Lemma setupSupportFiles_ignores_find pkg vsInstallPath :
  ignores_find (setupSupportFiles pkg vsInstallPath).
Proof. unfold setupSupportFiles, core.info. repeat ignores_step. Qed.

Lemma getVsToolsPath_ignores_find : ignores_find getVsToolsPath.
Proof.
  unfold getVsToolsPath, process.env, core.debug, core.setFailed, io.which,
    fs.existsSync.
  repeat ignores_step.
Qed.

Lemma setupRequiredTools_ignores_find pkg : ignores_find (setupRequiredTools pkg).
Proof.
  unfold setupRequiredTools. apply ignores_bind; [apply getVsToolsPath_ignores_find |].
  intros vswhereExe. unfold payload_listeners, core.info, core.error, core.setFailed.
  repeat ignores_step. apply setupSupportFiles_ignores_find.
Qed.

(** ** Running [install] symbolically *)

Arguments setupRequiredTools : simpl never.
Arguments string_of_Z : simpl never.
Arguments String.append : simpl never.
Arguments cache_miss : simpl never.

Ltac case_on x :=
  match goal with
  | H : x = _ |- _ => rewrite H; cbn
  | _ => let E := fresh "E" in destruct x eqn:E; cbn
  end.

(** One step of a run: a case split on the answer of the next call, in the
    order [install] makes the calls. *)
Ltac run_step :=
  match goal with
  | |- context [negb (platform ?w =? _)] => case_on (String.eqb (platform w) "win32")
  | |- context [swiftPackage_ ?w ?v ?s] => case_on (swiftPackage_ w v s)
  | |- context [find_ ?w ?t ?k ?v] => case_on (find_ w t k v)
  | |- context [if cache_miss ?f then _ else _] => case_on (cache_miss f)
  | |- context [setupKeys_ ?w ?t] => case_on (setupKeys_ w t)
  | |- context [downloadTool_ ?w ?t ?u] => case_on (downloadTool_ w t u)
  | |- context [verify_ ?w ?t ?a ?b] => case_on (verify_ w t a b)
  | |- context [cacheFile_ ?w ?t ?a ?b ?c ?d] => case_on (cacheFile_ w t a b c d)
  | |- context [exec_ ?w ?t ?c ?a ?v] =>
      match goal with
      | H : exec_ w t c a v = _ |- _ => rewrite H; cbn
      | _ => let out := fresh "out" in
             destruct (exec_ w t c a v) as [out [? | ?]] eqn:?; cbn
      end
  | |- context [(?c =? 0)%Z] => case_on (c =? 0)%Z
  | |- context [existsSync_ ?w ?t ?p] => case_on (existsSync_ w t p)
  end.

Ltac units := repeat match goal with u : unit |- _ => destruct u end.

Lemma provisioning_in d e :
  Forall (fun e => provisioning e = true) d -> In e d -> provisioning e = true.
Proof. intros H Hin. rewrite Forall_forall in H. apply H, Hin. Qed.

Lemma provisioning_elt pkg w t pre e post :
  fst (setupRequiredTools pkg w t) = (pre ++ e :: post)%list ->
  provisioning e = true.
Proof.
  intros H. pose proof (setupRequiredTools_provisioning pkg w t) as F.
  rewrite H in F. apply Forall_elt in F. exact F.
Qed.

(** Walk a decomposition [tr = pre ++ e :: post] of a trace whose first
    events are explicit: at each position either [e] is the event there,
    which is impossible when that event is not guarded, or the position
    belongs to [pre]. *)
Ltac scan Heq Hg :=
  lazymatch type of Heq with
  | _ :: _ = (?pre ++ _ :: _)%list =>
      destruct pre as [| ? pre]; cbn in Heq;
      [ injection Heq as <- <-; cbn in Hg; try discriminate Hg
      | injection Heq as <- Heq; scan Heq Hg ]
  | [] = (?pre ++ _ :: _)%list => destruct pre; discriminate Heq
  | _ => idtac
  end.

Ltac verified_witness :=
  do 3 eexists; split; [reflexivity |];
  split; [repeat constructor |];
  let Hc := fresh in
  intros ? ? ? ? ? Hc;
  first [discriminate Hc | injection Hc; intros; subst; reflexivity].

(** C1. In a run of [install] whose cache lookup misses, every caching of a
    file and every start of a process comes after, in this order, the
    successful set-up of the keys, the two downloads, and the successful
    verification of the downloaded signature against the downloaded
    installer, and the file that is cached is that installer; and when the
    verification throws, no file is cached, no process is started, and the
    exception leaves [install]. *)
Theorem install_verifies_before_use :
  forall w version system toolName found,
    let tr := trace_of (install version system) w in
    hd_error tr = Some (CacheFind toolName version (Returns found)) ->
    cache_miss found = true ->
    (forall pre e post,
        tr = (pre ++ e :: post)%list -> guarded e = true ->
        exists pkg exe sig,
          swiftPackage_ w version system = Returns pkg /\
          subseq [SetupKeys (Returns tt);
                  DownloadTool (Package.url pkg) (Returns exe);
                  DownloadTool (Package.url pkg ++ ".sig") (Returns sig);
                  Verify sig exe (Returns tt)] pre /\
          (forall src target tool v r,
              e = CacheFile src target tool v r -> src = exe))
    /\ (forall sig exe err,
          In (Verify sig exe (Throws err)) tr ->
          Forall (fun e => guarded e = false) tr
          /\ result_of (install version system) w = Throws err).
Proof.
  intros w version system toolName found tr.
  subst tr. unfold trace_of, result_of, run, install. cbn.
  run_step; [| intros H; discriminate H].
  run_step; [| intros H; discriminate H].
  run_step; [| intros H; discriminate H].
  intros H Hm. inversion H; subst. rewrite Hm. cbn. clear H.
  repeat run_step; units.
  all: split;
    [ intros pre ev post Heq Hg; scan Heq Hg;
      first
        [ verified_witness
        | pose proof (provisioning_elt _ _ _ _ _ _ Heq) as Hp;
          do 3 eexists; split; [reflexivity |];
          split; [repeat constructor | intros; subst ev; discriminate Hp] ]
    | intros sig0 exe0 err Hin;
      repeat (destruct Hin as [Hin | Hin]; [try discriminate Hin |]);
      first [ contradiction
            | apply provisioning_in
                with (1 := setupRequiredTools_provisioning _ _ _) in Hin;
              discriminate Hin
            | injection Hin as <- <- <-; split; [repeat constructor | reflexivity] ] ].
Qed.

Lemma install_verifies_before_use_witness :
  let w := Fixture.world (Some EmptyString) Fixture.vs2019_text Fixture.vs2019
             Fixture.all_succeed in
  let tr := trace_of (install "5.4.1" Fixture.windows) w in
  let e := nth 10 tr (CoreDebug EmptyString) in
  hd_error tr
  = Some (CacheFind "swift-windows" "5.4.1" (Returns (Some EmptyString))) /\
  cache_miss (Some EmptyString) = true /\
  guarded e = true /\
  exists pkg exe sig,
    swiftPackage_ w "5.4.1" Fixture.windows = Returns pkg /\
    subseq [SetupKeys (Returns tt);
            DownloadTool (Package.url pkg) (Returns exe);
            DownloadTool (Package.url pkg ++ ".sig") (Returns sig);
            Verify sig exe (Returns tt)] (firstn 10 tr) /\
    (forall src target tool v r,
        e = CacheFile src target tool v r -> src = exe).
Proof.
  intros w tr e.
  split; [reflexivity |]. split; [reflexivity |]. split; [reflexivity |].
  apply (proj1 (install_verifies_before_use w "5.4.1" Fixture.windows
                  "swift-windows" (Some EmptyString) eq_refl eq_refl)
           (firstn 10 tr) e (skipn 11 tr)); reflexivity.
Defined.

(** ** The platform guard *)

(** C10. Whatever the version and the system descriptor, on a platform
    other than [win32] the run of [install] consists of one [core.error]
    call and a normal return: the run is not marked failed, there is no cache
    lookup, download, verification, caching or child process, and the search
    path is left as it was. *)
Theorem install_off_windows :
  forall w version system,
    platform w <> "win32" ->
    let tr := trace_of (install version system) w in
    tr = [CoreError "Trying to run windows installer on non-windows os"] /\
    result_of (install version system) w = Returns tt /\
    marked_failed tr = false /\
    Forall (fun e => guarded e = false) tr /\
    registered tr = [] /\
    (forall PATH, PATH_after tr PATH = PATH).
Proof.
  intros w version system Hp tr. subst tr.
  unfold trace_of, result_of, run, install. cbn.
  destruct (String.eqb_spec (platform w) "win32") as [Heq | _]; [contradiction |].
  cbn. repeat split. repeat constructor.
Qed.

Lemma install_off_windows_witness :
  let w := with_platform
             (Fixture.world None Fixture.vs2019_text Fixture.vs2019 Fixture.all_succeed)
             "linux" in
  platform w <> "win32" /\
  trace_of (install "5.4.1" Fixture.windows) w
  = [CoreError "Trying to run windows installer on non-windows os"] /\
  result_of (install "5.4.1" Fixture.windows) w = Returns tt.
Proof.
  intros w.
  assert (Hp : platform w <> "win32") by discriminate.
  split; [exact Hp |].
  pose proof (install_off_windows w "5.4.1" Fixture.windows Hp) as H.
  cbv zeta in H. destruct H as [H1 [H2 _]]. split; assumption.
Defined.

(** ** The post-install decision and the search path *)

Lemma registered_provisioning d :
  Forall (fun e => provisioning e = true) d -> registered d = [].
Proof.
  induction 1 as [| e d He _ IH]; [reflexivity |].
  destruct e; simpl in *; try discriminate; exact IH.
Qed.

Lemma PATH_after_registered tr :
  forall PATH, PATH_after tr PATH = (rev (registered tr) ++ PATH)%list.
Proof.
  induction tr as [| e tr IH]; intros PATH; [reflexivity |].
  destruct e; simpl; try apply IH.
  rewrite IH, <- app_assoc. reflexivity.
Qed.

Ltac in_cases H :=
  repeat (destruct H as [H | H]; [try discriminate H |]).

Lemma exited_rejects_nonzero commandLine out exitCode code :
  status (exited commandLine out exitCode) = Returns code -> code = 0%Z.
Proof.
  unfold exited. cbn. destruct (exitCode =? 0)%Z; [| discriminate].
  intros H; injection H as <-. reflexivity.
Qed.

Lemma with_processes_rejects_nonzero w process :
  exec_rejects_nonzero (with_processes w process).
Proof.
  intros t commandLine args verbatim code H.
  exact (exited_rejects_nonzero _ _ _ _ H).
Qed.

Lemma all_succeed_rejects_nonzero cached query parsed :
  exec_rejects_nonzero (Fixture.world cached query parsed Fixture.all_succeed).
Proof.
  intros t commandLine args verbatim code H. cbn in H.
  injection H as <-. reflexivity.
Qed.

Lemma with_existsSync_rejects_nonzero w answer :
  exec_rejects_nonzero w -> exec_rejects_nonzero (with_existsSync w answer).
Proof. intros H t commandLine args verbatim code. apply H. Qed.

(** In a world of the program, a code [exec] resolved with is 0. *)
Ltac resolved_with_0 :=
  repeat match goal with
    | Hr : exec_rejects_nonzero ?w,
      Hq : exec_ ?w ?t ?c ?a ?v = {| output := _; status := Returns ?k |} |- _ =>
        is_var k;
        let Hk := fresh "Hk" in
        assert (Hk : k = 0%Z)
          by (apply (Hr t c a v); rewrite Hq; reflexivity);
        subst k
    end.

(** C2, as amended. In a world of the program, where [exec] rejects when
    the process exits with a code other than 0, the exit code of the
    installer reaches the test that follows only when it is 0: the binary
    directory is then tested, and the run goes on to register the directories
    when it is present and ends in the fatal failure, whose message gives the
    exit code 0, when it is absent.  When [exec] rejects, as it does on every
    other exit code, the rejection leaves [install]: the directory is not
    tested, no directory is registered, and the run is not marked failed. *)
Theorem post_install_decision :
  forall w version system,
    exec_rejects_nonzero w ->
    let tr := trace_of (install version system) w in
    (forall code,
        first_exit tr = Some (Returns code) ->
        code = 0%Z /\
        exists present,
          first_seen tr = Some (swiftInstallPath w, present) /\
          if (present : bool) then
            registered tr = swiftInstallPath w :: additionalPaths w /\
            ~ In (installer_failure 0) tr
          else
            post_install_fatal tr (result_of (install version system) w) 0) /\
    (forall err,
        first_exit tr = Some (Throws err) ->
        result_of (install version system) w = Throws err /\
        first_seen tr = None /\
        registered tr = [] /\
        marked_failed tr = false).
Proof.
  intros w version system Hreal tr. subst tr.
  unfold trace_of, result_of.
  destruct (run (install version system) w) as [tr r] eqn:Hrun.
  cbn [fst snd]. revert Hrun.
  unfold run, install, swiftInstallPath, additionalPaths, swiftLibPath, systemDrive.
  cbn.
  repeat run_step; units;
    intros Hrun; injection Hrun as <- <-; cbn;
    (split; [intros code H | intros err H]);
    try discriminate H; injection H as <-.
  all: try (repeat split; reflexivity).
  all: resolved_with_0.
  all: try match goal with E : (0 =? 0)%Z = false |- _ => discriminate E end.
  all: split; [reflexivity |].
  all: try (exists true; split; [reflexivity |]; split;
            [ rewrite (registered_provisioning _ (setupRequiredTools_provisioning _ _ _));
              reflexivity
            | intros Hin; in_cases Hin;
              apply provisioning_in
                with (1 := setupRequiredTools_provisioning _ _ _) in Hin;
              discriminate Hin ]).
  all: exists false; split; [reflexivity |].
  all: repeat split; solve [repeat first [left; reflexivity | right]].
Qed.

Lemma post_install_decision_witness :
  let w := with_existsSync
             (Fixture.world (Some "C:\cache\swift.exe") Fixture.vs2019_text
                Fixture.vs2019 Fixture.all_succeed)
             (fun _ _ => false) in
  let tr := trace_of (install "5.5.0" Fixture.windows) w in
  exec_rejects_nonzero w /\
  first_exit tr = Some (Returns 0%Z) /\
  exists present,
    first_seen tr = Some (swiftInstallPath w, present) /\
    if (present : bool) then
      registered tr = swiftInstallPath w :: additionalPaths w /\
      ~ In (installer_failure 0) tr
    else post_install_fatal tr (result_of (install "5.5.0" Fixture.windows) w) 0.
Proof.
  intros w tr.
  assert (Hreal : exec_rejects_nonzero w)
    by apply with_existsSync_rejects_nonzero, all_succeed_rejects_nonzero.
  split; [exact Hreal |]. split; [reflexivity |].
  exact (proj2 (proj1 (post_install_decision w "5.5.0" Fixture.windows Hreal)
                  0%Z eq_refl)).
Defined.

(** C2, as the specification states it, fails: on a runner where every
    directory is present and the installer exits with code 1, [exec]
    rejects, the rejection leaves [install], the directory is not looked at,
    and no directory is registered. *)
Lemma directory_present_is_not_success :
  let w := with_processes
             (Fixture.world (Some "C:\cache\swift.exe") Fixture.vs2019_text
                Fixture.vs2019 Fixture.all_succeed)
             (fun _ => ([], 1%Z)) in
  let tr := trace_of (install "5.5.0" Fixture.windows) w in
  let err := "Error: The process '" ++ quoted "C:\cache\swift.exe" ++ " -q"
             ++ "' failed with exit code 1" in
  (forall t p, existsSync_ w t p = true) /\
  exec_rejects_nonzero w /\
  (forall t args verbatim,
      exec_ w t (quoted "C:\cache\swift.exe" ++ " -q") args verbatim
      = exited (quoted "C:\cache\swift.exe" ++ " -q") [] 1) /\
  first_exit tr = Some (Throws err) /\
  result_of (install "5.5.0" Fixture.windows) w = Throws err /\
  first_seen tr = None /\
  registered tr = [] /\
  marked_failed tr = false.
Proof.
  intros w tr err. split; [reflexivity |].
  split; [apply with_processes_rejects_nonzero |].
  split; [reflexivity |]. vm_compute. intuition.
Qed.

(** C7. When the installer has exited with code 0 and the binary directory
    is present, the directories registered by the run are the toolchain's
    binary directory and then the auxiliary directories in the order of their
    declaration; every registration adds in front of the search path, so that
    the path after the run is these directories, last registered first,
    followed by the path before the run, of which no entry is lost. *)
Theorem install_registers_in_order :
  forall w version system,
    let tr := trace_of (install version system) w in
    first_exit tr = Some (Returns 0%Z) ->
    first_seen tr = Some (swiftInstallPath w, true) ->
    registered tr = swiftInstallPath w :: additionalPaths w /\
    (forall PATH,
        PATH_after tr PATH
        = (rev (swiftInstallPath w :: additionalPaths w) ++ PATH)%list) /\
    (forall PATH x, In x PATH -> In x (PATH_after tr PATH)).
Proof.
  intros w version system tr.
  assert (Hreg : first_exit tr = Some (Returns 0%Z) ->
                 first_seen tr = Some (swiftInstallPath w, true) ->
                 registered tr = swiftInstallPath w :: additionalPaths w).
  { subst tr. unfold trace_of, run, install, swiftInstallPath, additionalPaths,
      swiftLibPath, systemDrive. cbn.
    repeat run_step; units; cbn; try discriminate;
      intros H1 H2; try discriminate H2;
      try (injection H1 as ->; discriminate);
      rewrite (registered_provisioning _ (setupRequiredTools_provisioning _ _ _));
      reflexivity. }
  intros H1 H2. specialize (Hreg H1 H2).
  split; [exact Hreg |]. split.
  - intros PATH. rewrite PATH_after_registered, Hreg. reflexivity.
  - intros PATH x Hx. rewrite PATH_after_registered. apply in_or_app. right. exact Hx.
Qed.

Lemma install_registers_in_order_witness :
  let w := Fixture.world None Fixture.vs2019_text Fixture.vs2019 Fixture.all_succeed in
  let tr := trace_of (install "5.5.0" Fixture.windows) w in
  first_exit tr = Some (Returns 0%Z) /\
  first_seen tr = Some (swiftInstallPath w, true) /\
  registered tr
  = [ "C:\Library\Developer\Toolchains\unknown-Asserts-development.xctoolchain\usr\bin";
      "C:\Library\Swift-development\bin";
      "C:\Library\icu-67\usr\bin" ] /\
  PATH_after tr ["C:\Windows\system32"; "C:\Windows"]
  = [ "C:\Library\icu-67\usr\bin";
      "C:\Library\Swift-development\bin";
      "C:\Library\Developer\Toolchains\unknown-Asserts-development.xctoolchain\usr\bin";
      "C:\Windows\system32"; "C:\Windows" ].
Proof.
  intros w tr. split; [reflexivity |]. split; [reflexivity |].
  pose proof (install_registers_in_order w "5.5.0" Fixture.windows eq_refl eq_refl)
    as H.
  cbv zeta in H. destruct H as [H1 [H2 _]]. split.
  - exact H1.
  - exact (H2 ["C:\Windows\system32"; "C:\Windows"]).
Defined.

(** ** The cache gate *)

Lemma trimEnd_empty_blank s : trimEnd s = EmptyString <-> blank s = true.
Proof.
  induction s as [| c r IH]; simpl; [tauto |].
  destruct (trimEnd r) eqn:Er.
  - destruct (is_space c); simpl.
    + rewrite <- IH. tauto.
    + split; discriminate.
  - split; [discriminate |].
    intros H. apply andb_true_iff in H. destruct H as [_ H].
    apply IH in H. discriminate H.
Qed.

Lemma blank_trimStart s : blank (trimStart s) = blank s.
Proof.
  induction s as [| c r IH]; simpl; [reflexivity |].
  destruct (is_space c) eqn:Ec; simpl; [exact IH | rewrite Ec; reflexivity].
Qed.

Lemma trim_empty_blank s : trim s = EmptyString <-> blank s = true.
Proof. unfold trim. rewrite trimEnd_empty_blank, blank_trimStart. tauto. Qed.

Lemma length_zero (s : string) :
  (String.length s =? 0)%nat = true <-> s = EmptyString.
Proof. destruct s; simpl; split; congruence. Qed.

Lemma cache_miss_blank found :
  cache_miss found = true <->
  found = None \/ exists s, found = Some s /\ blank s = true.
Proof.
  unfold cache_miss. destruct found as [p |].
  - rewrite length_zero, trim_empty_blank. split.
    + intros H. right. exists p. tauto.
    + intros [H | [s [H Hb]]]; [discriminate | congruence].
  - split; [intros _; left; reflexivity | reflexivity].
Qed.

Lemma cache_hit_not_blank found :
  cache_miss found = false ->
  exists p, found = Some p /\ trim p <> EmptyString /\ blank p = false.
Proof.
  intros H. destruct found as [p |]; [| discriminate H].
  exists p. split; [reflexivity |].
  assert (Hn : trim p <> EmptyString).
  { intros Ht. apply length_zero in Ht. unfold cache_miss in H. congruence. }
  split; [exact Hn |].
  destruct (blank p) eqn:Hb; [| reflexivity].
  apply trim_empty_blank in Hb. contradiction.
Qed.

(** C4. A run in which the cache lookup answers a string made of white
    space only (the empty string included) is, after the lookup, the run in
    which it answers [null]: the same events and the same outcome.  In every
    run, an answer that is treated as a miss is [null] or such a string, the
    run goes on with the set-up of the keys, and the installer that is
    started, if one is, is the file that was fetched and cached; an answer
    that is treated as a hit is a string that is not empty once trimmed, and
    it is the path of the installer that is started. *)
Theorem cache_gate :
  forall w version system,
    (forall s,
        blank s = true ->
        let blank_run :=
          run (install version system) (with_find w (Returns (Some s))) in
        let absent_run :=
          run (install version system) (with_find w (Returns None)) in
        tl (fst blank_run) = tl (fst absent_run) /\
        snd blank_run = snd absent_run)
    /\
    (forall toolName found,
        let tr := trace_of (install version system) w in
        hd_error tr = Some (CacheFind toolName version (Returns found)) ->
        (cache_miss found = true ->
         (found = None \/ exists s, found = Some s /\ blank s = true) /\
         nth_error tr 1 = Some (CoreDebug "No cached installer found") /\
         (exists r, nth_error tr 2 = Some (SetupKeys r)) /\
         (forall commandLine,
             first_command tr = Some commandLine ->
             exists pkg exe exePath,
               swiftPackage_ w version system = Returns pkg /\
               In (CacheFile exe (Package.name pkg) toolName version
                     (Returns exePath)) tr /\
               commandLine
               = quoted (join_ w [exePath; Package.name pkg]) ++ " -q")) /\
        (cache_miss found = false ->
         exists p,
           found = Some p /\ trim p <> EmptyString /\ blank p = false /\
           nth_error tr 1 = Some (CoreDebug "Cached installer found") /\
           first_command tr = Some (quoted p ++ " -q"))).
Proof.
  intros w version system. split.
  - intros s Hs blank_run absent_run. subst blank_run absent_run.
    assert (Hm : cache_miss (Some s) = true)
      by (apply cache_miss_blank; right; exists s; tauto).
    unfold run, install. cbn.
    destruct (String.eqb (platform w) "win32"); cbn; [| split; reflexivity].
    destruct (swiftPackage_ w version system); cbn; [| split; reflexivity].
    rewrite Hm. change (cache_miss None) with true. cbn.
    repeat run_step; rewrite ?setupRequiredTools_ignores_find; split; reflexivity.
  - intros toolName found tr. subst tr. unfold trace_of.
    destruct (run (install version system) w) as [tr r] eqn:Hrun.
    cbn [fst snd]. revert Hrun. unfold run, install. cbn.
    repeat run_step; units;
      intros Hrun; injection Hrun as <- _; cbn;
      intros H; try discriminate H; injection H as <- <-;
      (split; intros Hc; [| try congruence]; [try congruence | ..]).
    all: try (split; [apply cache_miss_blank; exact Hc |];
              split; [reflexivity |];
              split; [eexists; reflexivity |];
              intros commandLine Hcmd; cbn in Hcmd).
    all: try discriminate Hcmd.
    all: try (injection Hcmd as <-; do 3 eexists;
              split; [reflexivity |]).
    all: try (split; [solve [repeat first [left; reflexivity | right]] |]).
    all: try reflexivity.
    all: destruct (cache_hit_not_blank _ Hc) as [p [-> [Ht Hb]]];
      exists p; repeat split; assumption || reflexivity.
Qed.

Lemma cache_gate_witness :
  let base := Fixture.world None Fixture.vs2019_text Fixture.vs2019
                Fixture.all_succeed in
  let spaces := String " "%char (String "009"%char EmptyString) in
  blank spaces = true /\
  tl (trace_of (install "5.5.0" Fixture.windows) (with_find base (Returns (Some spaces))))
  = tl (trace_of (install "5.5.0" Fixture.windows) (with_find base (Returns None))) /\
  hd_error (trace_of (install "5.5.0" Fixture.windows)
              (with_find base (Returns (Some "C:\cache\swift.exe"))))
  = Some (CacheFind "swift-windows" "5.5.0" (Returns (Some "C:\cache\swift.exe"))) /\
  cache_miss (Some "C:\cache\swift.exe") = false /\
  exists p,
    Some "C:\cache\swift.exe" = Some p /\ trim p <> EmptyString /\ blank p = false /\
    nth_error (trace_of (install "5.5.0" Fixture.windows)
                 (with_find base (Returns (Some "C:\cache\swift.exe")))) 1
    = Some (CoreDebug "Cached installer found") /\
    first_command (trace_of (install "5.5.0" Fixture.windows)
                     (with_find base (Returns (Some "C:\cache\swift.exe"))))
    = Some (quoted p ++ " -q").
Proof.
  intros base spaces. split; [reflexivity |]. split.
  - exact (proj1 (proj1 (cache_gate base "5.5.0" Fixture.windows) spaces eq_refl)).
  - split; [reflexivity |]. split; [reflexivity |].
    exact (proj2 (proj2 (cache_gate
                           (with_find base (Returns (Some "C:\cache\swift.exe")))
                           "5.5.0" Fixture.windows)
                    "swift-windows" (Some "C:\cache\swift.exe") eq_refl) eq_refl).
Defined.

(** ** The build-tools provisioner *)

Lemma lt_5_4_2 version v :
  semver.parse version = Returns v ->
  (semver.lt version "5.4.2" = Returns true <-> below_5_4_2 v).
Proof.
  intros Hp. unfold semver.lt. rewrite Hp.
  change (semver.parse "5.4.2") with (Returns (semver.mk 5 4 2 [])).
  unfold below_5_4_2, semver.compare, semver.compareMain, semver.comparePre.
  destruct v as [x y z pre];
    cbn [semver.major semver.minor semver.patch semver.prerelease].
  destruct (N.compare_spec x 5) as [-> | H | H];
    [destruct (N.compare_spec y 4) as [-> | H | H];
     [destruct (N.compare_spec z 2) as [-> | H | H] | |] | |].
  - destruct pre as [| i pre]; simpl.
    + split; [discriminate |].
      intros [H | [[_ H] | [[_ [_ H]] | [_ [_ [_ H]]]]]]; try lia.
      contradiction.
    + split; [| reflexivity]. intros _. do 3 right. repeat split. discriminate.
  - split; [| reflexivity]. intros _. right; right; left. tauto.
  - split; [discriminate |].
    intros [H' | [[_ H'] | [[_ [_ H']] | [_ [_ [H' _]]]]]]; lia.
  - split; [| reflexivity]. intros _. right; left. tauto.
  - split; [discriminate |].
    intros [H' | [[_ H'] | [[_ [H' _]] | [_ [H' _]]]]]; lia.
  - split; [| reflexivity]. intros _. left. exact H.
  - split; [discriminate |].
    intros [H' | [[H' _] | [[H' _] | [H' _]]]]; lia.
Qed.

(** C5. [setupSupportFiles] starts the copy of the support files exactly
    when [semver.lt] finds the package's version below [5.4.2], which for a
    version that parses means a precedence strictly below that of [5.4.2];
    the process it starts is [cmd /c] with the developer prompt script
    followed by the four copy commands; [5.4.1] is below the threshold,
    [5.4.2] and [5.5.0] are not. *)
Theorem support_files_threshold :
  forall w pkg (vsInstallPath : string) t,
    let tr := fst (setupSupportFiles pkg (VStr vsInstallPath) w t) in
    (copy_runs tr <-> semver.lt (Package.version pkg) "5.4.2" = Returns true) /\
    (copy_runs tr ->
     exists r,
       hd_error tr = Some (Exec "cmd /c" [copy_argument w vsInstallPath] true r)) /\
    (forall v, semver.parse (Package.version pkg) = Returns v ->
               (copy_runs tr <-> below_5_4_2 v)) /\
    semver.lt "5.4.1" "5.4.2" = Returns true /\
    semver.lt "5.4.2" "5.4.2" = Returns false /\
    semver.lt "5.5.0" "5.4.2" = Returns false.
Proof.
  intros w pkg vsInstallPath t tr.
  assert (Hiff : copy_runs tr
                 <-> semver.lt (Package.version pkg) "5.4.2" = Returns true).
  { subst tr. unfold setupSupportFiles, copy_runs. cbn.
    destruct (semver.lt (Package.version pkg) "5.4.2") as [[|] | e]; cbn.
    - split; [reflexivity |]. intros _. run_step; do 2 eexists; left; reflexivity.
    - split; [| discriminate]. intros [args [r []]].
    - split; [| discriminate]. intros [args [r []]]. }
  split; [exact Hiff |]. split; [| split].
  - intros Hr. apply Hiff in Hr. subst tr. unfold setupSupportFiles. cbn.
    rewrite Hr. cbn. run_step; eexists; reflexivity.
  - intros v Hv. rewrite Hiff. apply lt_5_4_2, Hv.
  - repeat split; reflexivity.
Qed.

Lemma support_files_threshold_witness :
  let w := Fixture.world None Fixture.vs2019_text Fixture.vs2019 Fixture.all_succeed in
  semver.lt "5.4.1" "5.4.2" = Returns true /\
  copy_runs (fst (setupSupportFiles (Fixture.swift "5.4.1") (VStr Fixture.vs_path) w 0)) /\
  ~ copy_runs (fst (setupSupportFiles (Fixture.swift "5.4.2") (VStr Fixture.vs_path) w 0)) /\
  ~ copy_runs (fst (setupSupportFiles (Fixture.swift "5.5.0") (VStr Fixture.vs_path) w 0)).
Proof.
  intros w. split; [reflexivity |]. split; [| split].
  - apply (proj1 (support_files_threshold w (Fixture.swift "5.4.1") Fixture.vs_path 0)).
    reflexivity.
  - intros H.
    apply (proj1 (support_files_threshold w (Fixture.swift "5.4.2") Fixture.vs_path 0))
      in H.
    discriminate H.
  - intros H.
    apply (proj1 (support_files_threshold w (Fixture.swift "5.5.0") Fixture.vs_path 0))
      in H.
    discriminate H.
Defined.

Lemma bind_throws {A B : Type} (m : M A) (k : A -> M B) w t d e :
  m w t = (d, Throws e) -> bind m k w t = (d, Throws e).
Proof. intros H. unfold bind. rewrite H. reflexivity. Qed.

(** C8, as amended. The query tool is looked for in the directory named by
    [VSWHERE_PATH] when that variable is set to a non-empty value, else on the
    search path, else in the installer directory under [ProgramFiles(x86)].
    The one existence test of [getVsToolsPath] is on that location: when the
    tool is there its path is returned and nothing is marked failed; when it
    is not, the run is marked failed with a message that names
    [vswhere.exe], an exception is thrown, and [setupRequiredTools] does
    nothing more. *)
Theorem query_tool_resolution :
  forall w pkg t p,
    vswhere_location w t = Some p ->
    let tr := fst (getVsToolsPath w t) in
    exists present,
      first_seen tr = Some (p, present) /\
      if (present : bool) then
        snd (getVsToolsPath w t) = Returns p /\ marked_failed tr = false
      else
        snd (getVsToolsPath w t) = Throws "Error" /\
        last tr (CoreDebug EmptyString) = vswhere_missing /\
        marked_failed tr = true /\
        setupRequiredTools pkg w t = (tr, Throws "Error").
Proof.
  intros w pkg t p Hloc tr.
  assert (H : exists present,
             first_seen tr = Some (p, present) /\
             if (present : bool) then
               snd (getVsToolsPath w t) = Returns p /\ marked_failed tr = false
             else
               snd (getVsToolsPath w t) = Throws "Error" /\
               last tr (CoreDebug EmptyString) = vswhere_missing /\
               marked_failed tr = true).
  { subst tr. revert Hloc.
    unfold vswhere_location, getVsToolsPath, vswhere_missing, bind, try_catch. cbn.
    destruct (given (env w "VSWHERE_PATH")) eqn:Hg; cbn.
    - destruct (env w "VSWHERE_PATH") as [dir |]; [| discriminate Hg]. cbn.
      intros H; injection H as <-.
      run_step; [exists true | exists false]; cbn; repeat split.
    - destruct (which_ w t "vswhere") as [q | e]; cbn.
      + intros H; injection H as <-.
        run_step; [exists true | exists false]; cbn; repeat split.
      + destruct (env w "ProgramFiles(x86)") as [pf |]; cbn; [| discriminate].
        intros H; injection H as <-.
        run_step; [exists true | exists false]; cbn; repeat split. }
  destruct H as [present [Hseen H]]. exists present. split; [exact Hseen |].
  destruct present; [exact H |].
  destruct H as [Hthrow [Hlast Hfailed]]. repeat split; try assumption.
  unfold setupRequiredTools. apply bind_throws.
  rewrite <- Hthrow. subst tr. apply surjective_pairing.
Qed.

Lemma query_tool_resolution_witness :
  let w := with_existsSync
             (Fixture.world None Fixture.vs2019_text Fixture.vs2019 Fixture.all_succeed)
             (fun _ _ => false) in
  vswhere_location w 0 = Some Fixture.vswhere /\
  first_seen (fst (getVsToolsPath w 0)) = Some (Fixture.vswhere, false) /\
  snd (getVsToolsPath w 0) = Throws "Error" /\
  last (fst (getVsToolsPath w 0)) (CoreDebug EmptyString) = vswhere_missing /\
  marked_failed (fst (getVsToolsPath w 0)) = true /\
  setupRequiredTools (Fixture.swift "5.5.0") w 0
  = (fst (getVsToolsPath w 0), Throws "Error").
Proof.
  intros w. split; [reflexivity |].
  destruct (query_tool_resolution w (Fixture.swift "5.5.0") 0 Fixture.vswhere eq_refl)
    as [present [Hseen H]].
  assert (Hp : present = false) by (cbv in Hseen; congruence).
  subst present. split; [exact Hseen | exact H].
Defined.

(** C8, as the specification states it, fails: on a runner where
    [vswhere.exe] exists and no other file does, so that no modify engine
    exists beside it or anywhere else, the query tool is resolved, nothing is
    marked failed, and provisioning goes on to start the modify engine. *)
Lemma companion_engine_not_checked :
  let w := with_existsSync
             (Fixture.world None Fixture.vs2019_text Fixture.vs2019 Fixture.all_succeed)
             (fun _ p => String.eqb p Fixture.vswhere) in
  let tr := trace_of (setupRequiredTools (Fixture.swift "5.5.0")) w in
  (forall t p, p <> Fixture.vswhere -> existsSync_ w t p = false) /\
  result_of getVsToolsPath w = Returns Fixture.vswhere /\
  marked_failed tr = false /\
  result_of (setupRequiredTools (Fixture.swift "5.5.0")) w = Returns tt /\
  first_seen tr = Some (Fixture.vswhere, true) /\
  In (Exec Fixture.engine_command [] false (mk_exec_result [] (Returns 0%Z))) tr.
Proof.
  intros w tr. split.
  - intros t p Hp. cbn. apply String.eqb_neq. exact Hp.
  - vm_compute. intuition.
Qed.

(** On the same runner the earlier revision of the lookup, which tests
    [vs_installer.exe] beside [vswhere.exe], marks the run failed and
    throws. *)
Lemma earlier_revision_checks_companion :
  let w := with_existsSync
             (Fixture.world None Fixture.vs2019_text Fixture.vs2019 Fixture.all_succeed)
             (fun _ p => String.eqb p Fixture.vswhere) in
  let tr := trace_of Earlier.getVsWherePath w in
  result_of Earlier.getVsWherePath w = Throws "Error" /\
  In (ExistsSync
        "C:\Program Files (x86)\Microsoft Visual Studio\Installer\vs_installer.exe"
        false) tr /\
  marked_failed tr = true.
Proof. vm_compute. intuition. Qed.

(** C3, at the failing input. When [vswhere] prints the empty list, the
    first record is [undefined] and [setupRequiredTools] reads its
    [installationPath]: the read throws a [TypeError], and the run is not
    marked failed with the message that names the version. *)
Theorem empty_query_result_is_dereferenced :
  let w := Fixture.world None "[]" (VArr []) Fixture.all_succeed in
  let tr := trace_of (setupRequiredTools (Fixture.swift "5.5.0")) w in
  parse_ w "[]" = Returns (VArr []) /\
  In (Exec Fixture.vswhere_command [] false
        (mk_exec_result [Stdout "[]"] (Returns 0%Z))) tr /\
  result_of (setupRequiredTools (Fixture.swift "5.5.0")) w
  = Throws "TypeError: Cannot read properties of undefined (reading 'installationPath')" /\
  marked_failed tr = false /\
  last tr (CoreDebug EmptyString) = CoreInfo "obj: undefined".
Proof. vm_compute. intuition. Qed.

(** A first record without an installation path is the fatal failure that
    names the version. *)
Lemma record_without_path_is_fatal :
  let w := Fixture.world None "[{}]" (VArr [VObj []]) Fixture.all_succeed in
  let tr := trace_of (setupRequiredTools (Fixture.swift "5.5.0")) w in
  result_of (setupRequiredTools (Fixture.swift "5.5.0")) w = Returns tt /\
  last tr (CoreDebug EmptyString)
  = CoreSetFailed "Unable to find any visual studio installation for version: 16.".
Proof. vm_compute. intuition. Qed.

Lemma append_assoc (a b c : string) : (a ++ b) ++ c = a ++ (b ++ c).
Proof.
  induction a as [| x a IH]; [reflexivity |].
  change (String x ((a ++ b) ++ c) = String x (a ++ (b ++ c))).
  rewrite IH. reflexivity.
Qed.

Lemma append_empty (a : string) : a ++ EmptyString = a.
Proof.
  induction a as [| x a IH]; [reflexivity |].
  change (String x (a ++ EmptyString) = String x a).
  rewrite IH. reflexivity.
Qed.

Lemma fold_add_component r :
  forall acc, fold_left add_component r acc = acc ++ added r.
Proof.
  induction r as [| c r IH]; intros acc; simpl.
  - symmetry. apply append_empty.
  - rewrite IH. unfold add_component. rewrite !append_assoc. reflexivity.
Qed.

(** C6, at the failing input. [reduce] without an initial value starts from
    the first component, so that the first component enters the command line
    bare and only the later ones follow an [--add]: for the two required
    components the modify engine is started with one [--add], and none for
    the first component. *)
Theorem first_component_is_not_added :
  (forall c r, reduce add_component (c :: r) = Returns (c ++ added r)) /\
  (let w := Fixture.world None Fixture.vs2019_text Fixture.vs2019 Fixture.all_succeed in
   let pkg := Fixture.swift "5.5.0" in
   let tr := trace_of (setupRequiredTools pkg) w in
   VsRequirement.components (vsRequirement pkg)
   = [ "Microsoft.VisualStudio.Component.VC.Tools.x86.x64";
       "Microsoft.VisualStudio.Component.Windows10SDK.17763" ] /\
   In (Exec Fixture.engine_command [] false (mk_exec_result [] (Returns 0%Z))) tr /\
   (forall commandLine args verbatim r,
       In (Exec commandLine args verbatim r) tr ->
       commandLine = Fixture.vswhere_command \/ commandLine = Fixture.engine_command) /\
   occurrences "--add" Fixture.engine_command = 1 /\
   occurrences ("--add " ++ quoted "Microsoft.VisualStudio.Component.VC.Tools.x86.x64")
     Fixture.engine_command = 0).
Proof.
  split.
  - intros c r. unfold reduce. rewrite fold_add_component. reflexivity.
  - cbv zeta. split; [reflexivity |]. split; [vm_compute; intuition |].
    split; [| split; vm_compute; reflexivity].
    intros commandLine args verbatim r Hin. vm_compute in Hin.
    repeat (destruct Hin as [Hin | Hin]; [try discriminate Hin |]);
      try contradiction.
    + left. injection Hin as <- _ _ _. reflexivity.
    + right. injection Hin as <- _ _ _. reflexivity.
Qed.

Lemma setupSupportFiles_never_fails pkg vsInstallPath :
  emits (fun e => is_setFailed e = false) (setupSupportFiles pkg vsInstallPath).
Proof.
  unfold setupSupportFiles, core.info. emits_all; reflexivity.
Qed.

(** ** More on [install] *)

Lemma provisioning_no_fetch d :
  Forall (fun e => provisioning e = true) d ->
  Forall (fun e => fetches e = false) d.
Proof.
  intros H. eapply Forall_impl; [| exact H].
  intros e He. destruct e; simpl in *; try reflexivity; discriminate.
Qed.

(** X1. When the cache lookup answers a path that is not blank, the run of
    [install] sets up no keys, transfers nothing, verifies nothing and
    caches nothing: the cached installer is used as it is. *)
Theorem cache_hit_skips_fetch :
  forall w version system toolName found,
    let tr := trace_of (install version system) w in
    hd_error tr = Some (CacheFind toolName version (Returns found)) ->
    cache_miss found = false ->
    Forall (fun e => fetches e = false) tr.
Proof.
  intros w version system toolName found tr. subst tr. unfold trace_of.
  destruct (run (install version system) w) as [tr r] eqn:Hrun.
  cbn [fst snd]. revert Hrun. unfold run, install. cbn.
  repeat run_step; units;
    intros Hrun; injection Hrun as <- _; cbn;
    intros H; try discriminate H; injection H as _ <-;
    intros Hc; try congruence.
  all: repeat (apply Forall_cons; [reflexivity |]);
    first [ apply Forall_nil
          | apply provisioning_no_fetch, setupRequiredTools_provisioning ].
Qed.

Lemma cache_hit_skips_fetch_witness :
  let w := Fixture.world (Some "C:\cache\swift.exe") Fixture.vs2019_text
             Fixture.vs2019 Fixture.all_succeed in
  let tr := trace_of (install "5.5.0" Fixture.windows) w in
  hd_error tr
  = Some (CacheFind "swift-windows" "5.5.0" (Returns (Some "C:\cache\swift.exe"))) /\
  cache_miss (Some "C:\cache\swift.exe") = false /\
  Forall (fun e => fetches e = false) tr.
Proof.
  intros w tr. split; [reflexivity |]. split; [reflexivity |].
  exact (cache_hit_skips_fetch w "5.5.0" Fixture.windows "swift-windows"
           (Some "C:\cache\swift.exe") eq_refl eq_refl).
Defined.

Ltac in_hyp H :=
  repeat (destruct H as [H | H]; [try discriminate H |]).

(** X2. When one of the two transfers of [download] throws, both transfers
    have been started all the same, nothing is verified or cached and no
    process is started, an exception leaves [install], and the run is not
    marked failed. *)
Theorem failed_download_stops_install :
  forall w version system url err,
    let tr := trace_of (install version system) w in
    In (DownloadTool url (Throws err)) tr ->
    Forall (fun e => guarded e = false /\ is_verify e = false) tr /\
    length (filter is_download tr) = 2 /\
    (exists e, result_of (install version system) w = Throws e) /\
    marked_failed tr = false.
Proof.
  intros w version system url err tr. subst tr. unfold trace_of, result_of.
  destruct (run (install version system) w) as [tr r] eqn:Hrun.
  cbn [fst snd]. revert Hrun. unfold run, install. cbn.
  repeat run_step; units;
    intros Hrun; injection Hrun as <- <-; cbn;
    intros H; in_hyp H; try contradiction;
    try (apply provisioning_in
           with (1 := setupRequiredTools_provisioning _ _ _) in H;
         discriminate H).
  all: repeat split; try (eexists; reflexivity);
    repeat (apply Forall_cons; [split; reflexivity |]); apply Forall_nil.
Qed.

Lemma failed_download_stops_install_witness :
  let url := Package.url (Fixture.swift "5.5.0") in
  let w := with_downloadTool
             (Fixture.world None Fixture.vs2019_text Fixture.vs2019
                Fixture.all_succeed)
             (fun u => if String.eqb u url then Throws "Error: 404"
                       else Returns "C:\Temp\signature") in
  let tr := trace_of (install "5.5.0" Fixture.windows) w in
  In (DownloadTool url (Throws "Error: 404")) tr /\
  Forall (fun e => guarded e = false /\ is_verify e = false) tr /\
  length (filter is_download tr) = 2 /\
  (exists e, result_of (install "5.5.0" Fixture.windows) w = Throws e) /\
  marked_failed tr = false.
Proof.
  intros url w tr.
  assert (Hin : In (DownloadTool url (Throws "Error: 404")) tr)
    by (do 4 right; left; reflexivity).
  split; [exact Hin |].
  exact (failed_download_stops_install w "5.5.0" Fixture.windows url
           "Error: 404" Hin).
Defined.

(** X3. When the set-up of the keys throws, that call is the last event of
    the run: nothing is transferred, verified or cached, no process is
    started, the exception leaves [install], and the run is not marked
    failed. *)
Theorem failed_keys_stop_install :
  forall w version system err,
    let tr := trace_of (install version system) w in
    In (SetupKeys (Throws err)) tr ->
    last tr (CoreDebug EmptyString) = SetupKeys (Throws err) /\
    Forall (fun e => guarded e = false /\ is_download e = false
                     /\ is_verify e = false) tr /\
    result_of (install version system) w = Throws err /\
    marked_failed tr = false.
Proof.
  intros w version system err tr. subst tr. unfold trace_of, result_of.
  destruct (run (install version system) w) as [tr r] eqn:Hrun.
  cbn [fst snd]. revert Hrun. unfold run, install. cbn.
  repeat run_step; units;
    intros Hrun; injection Hrun as <- <-; cbn;
    intros H; in_hyp H; try contradiction;
    try (apply provisioning_in
           with (1 := setupRequiredTools_provisioning _ _ _) in H;
         discriminate H).
  all: injection H as <-; repeat split;
    repeat (apply Forall_cons; [repeat split |]); apply Forall_nil.
Qed.

Lemma failed_keys_stop_install_witness :
  let w := with_setupKeys
             (Fixture.world None Fixture.vs2019_text Fixture.vs2019
                Fixture.all_succeed)
             (Throws "Error: gpg failed") in
  let tr := trace_of (install "5.5.0" Fixture.windows) w in
  In (SetupKeys (Throws "Error: gpg failed")) tr /\
  last tr (CoreDebug EmptyString) = SetupKeys (Throws "Error: gpg failed") /\
  result_of (install "5.5.0" Fixture.windows) w = Throws "Error: gpg failed".
Proof.
  intros w tr.
  assert (Hin : In (SetupKeys (Throws "Error: gpg failed")) tr)
    by (do 2 right; left; reflexivity).
  split; [exact Hin |].
  pose proof (failed_keys_stop_install w "5.5.0" Fixture.windows
                "Error: gpg failed" Hin) as H.
  cbv zeta in H. destruct H as [H1 [_ [H2 _]]]. split; assumption.
Defined.

(** X4. When the caching of the installer throws, that call is the last
    event of the run and comes after the successful verification of the file
    it was given; no process is started, no directory is registered, the
    exception leaves [install], and the run is not marked failed. *)
Theorem failed_caching_stops_install :
  forall w version system src target tool v err,
    let tr := trace_of (install version system) w in
    In (CacheFile src target tool v (Throws err)) tr ->
    result_of (install version system) w = Throws err /\
    last tr (CoreDebug EmptyString) = CacheFile src target tool v (Throws err) /\
    (exists sig, In (Verify sig src (Returns tt)) tr) /\
    first_exit tr = None /\
    registered tr = [] /\
    marked_failed tr = false.
Proof.
  intros w version system src target tool v err tr. subst tr.
  unfold trace_of, result_of.
  destruct (run (install version system) w) as [tr r] eqn:Hrun.
  cbn [fst snd]. revert Hrun. unfold run, install. cbn.
  repeat run_step; units;
    intros Hrun; injection Hrun as <- <-; cbn;
    intros H; in_hyp H; try contradiction;
    try (apply provisioning_in
           with (1 := setupRequiredTools_provisioning _ _ _) in H;
         discriminate H).
  all: injection H as <- <- <- <- <-; repeat split.
  all: eexists; do 7 right; left; reflexivity.
Qed.

Lemma failed_caching_stops_install_witness :
  let w := with_cacheFile
             (Fixture.world None Fixture.vs2019_text Fixture.vs2019
                Fixture.all_succeed)
             (Throws "Error: EACCES") in
  let tr := trace_of (install "5.5.0" Fixture.windows) w in
  let e := CacheFile "C:\Temp\download-4" "swift-5.5.0-RELEASE-windows10.exe"
             "swift-windows" "5.5.0" (Throws "Error: EACCES") in
  In e tr /\
  result_of (install "5.5.0" Fixture.windows) w = Throws "Error: EACCES" /\
  last tr (CoreDebug EmptyString) = e /\
  first_exit tr = None.
Proof.
  intros w tr e.
  assert (Hin : In e tr) by (do 8 right; left; reflexivity).
  split; [exact Hin |].
  pose proof (failed_caching_stops_install w "5.5.0" Fixture.windows
                _ _ _ _ _ Hin) as H.
  cbv zeta in H. destruct H as [H1 [H2 [_ [H3 _]]]]. repeat split; assumption.
Defined.

(** X5. In every run of [install], either no directory is registered, or the
    installer has exited with code 0, the binary directory has been found
    present, and the directories registered are the binary directory and the
    two auxiliary ones. *)
Theorem registration_needs_success :
  forall w version system,
    let tr := trace_of (install version system) w in
    registered tr = [] \/
    (registered tr = swiftInstallPath w :: additionalPaths w /\
     first_exit tr = Some (Returns 0%Z) /\
     first_seen tr = Some (swiftInstallPath w, true)).
Proof.
  intros w version system tr. subst tr. unfold trace_of.
  destruct (run (install version system) w) as [tr r] eqn:Hrun.
  cbn [fst snd]. revert Hrun.
  unfold run, install, swiftInstallPath, additionalPaths, swiftLibPath, systemDrive.
  cbn.
  repeat run_step; units;
    intros Hrun; injection Hrun as <- _; cbn;
    first [ left; reflexivity | right ].
  all: rewrite (registered_provisioning _ (setupRequiredTools_provisioning _ _ _)).
  all: match goal with E : (?c =? 0)%Z = true |- _ =>
         apply Z.eqb_eq in E; subst c end.
  all: repeat split.
Qed.

(** X6. When [exec] rejects for the installer, because the process cannot
    be run or, in a world of the program, because it exits with a code other
    than 0, the rejection leaves [install] at once: the start of the process
    is the last event, the binary directory is not tested, no directory is
    registered, and the run is not marked failed. *)
Theorem rejected_installer_stops_install :
  forall w version system err,
    let tr := trace_of (install version system) w in
    first_exit tr = Some (Throws err) ->
    result_of (install version system) w = Throws err /\
    (exists commandLine out,
        last tr (CoreDebug EmptyString)
        = Exec commandLine [] false (mk_exec_result out (Throws err))) /\
    first_seen tr = None /\
    registered tr = [] /\
    marked_failed tr = false.
Proof.
  intros w version system err tr. subst tr. unfold trace_of, result_of.
  destruct (run (install version system) w) as [tr r] eqn:Hrun.
  cbn [fst snd]. revert Hrun. unfold run, install. cbn.
  repeat run_step; units;
    intros Hrun; injection Hrun as <- <-; cbn;
    intros H; try discriminate H; injection H as <-.
  all: repeat split; do 2 eexists; reflexivity.
Qed.

Lemma rejected_installer_stops_install_witness :
  let w := with_exec
             (Fixture.world (Some "C:\cache\swift.exe") Fixture.vs2019_text
                Fixture.vs2019 Fixture.all_succeed)
             (fun _ => mk_exec_result [] (Throws "Error: spawn ENOENT")) in
  let tr := trace_of (install "5.5.0" Fixture.windows) w in
  first_exit tr = Some (Throws "Error: spawn ENOENT") /\
  result_of (install "5.5.0" Fixture.windows) w = Throws "Error: spawn ENOENT" /\
  registered tr = [] /\
  marked_failed tr = false.
Proof.
  intros w tr. split; [reflexivity |].
  pose proof (rejected_installer_stops_install w "5.5.0" Fixture.windows
                "Error: spawn ENOENT" eq_refl) as H.
  cbv zeta in H. destruct H as [H1 [_ [_ [H2 H3]]]]. repeat split; assumption.
Defined.

Ltac prefix_of l :=
  lazymatch l with
  | ?x :: ?r => let p := prefix_of r in constr:(x :: p)
  | _ => constr:(@nil event)
  end.

(** X7. After a successful installation the rest of the run is the run of
    [setupRequiredTools] on the package of the version: its events follow
    the message that tells where Swift was installed, and its outcome is the
    outcome of [install]. *)
Theorem install_ends_in_provisioning :
  forall w version system,
    let tr := trace_of (install version system) w in
    first_exit tr = Some (Returns 0%Z) ->
    first_seen tr = Some (swiftInstallPath w, true) ->
    exists pkg pre,
      swiftPackage_ w version system = Returns pkg /\
      tr = (pre ++ fst (setupRequiredTools pkg w (length pre)))%list /\
      result_of (install version system) w
      = snd (setupRequiredTools pkg w (length pre)) /\
      last pre (CoreDebug EmptyString)
      = CoreDebug ("Swift installed at " ++ quoted (swiftInstallPath w)).
Proof.
  intros w version system tr. subst tr. unfold trace_of, result_of.
  destruct (run (install version system) w) as [tr r] eqn:Hrun.
  cbn [fst snd]. revert Hrun.
  unfold run, install, swiftInstallPath, swiftLibPath, systemDrive. cbn.
  repeat run_step; units;
    intros Hrun; injection Hrun as <- <-; cbn;
    intros H1 H2; try discriminate H1; try discriminate H2.
  all: eexists;
    match goal with
    | |- context [CacheFind ?a ?b ?c :: ?r] =>
        let p := prefix_of (CacheFind a b c :: r) in exists p
    end;
    repeat split.
Qed.

Lemma install_ends_in_provisioning_witness :
  let w := Fixture.world None Fixture.vs2019_text Fixture.vs2019
             Fixture.all_succeed in
  let tr := trace_of (install "5.5.0" Fixture.windows) w in
  first_exit tr = Some (Returns 0%Z) /\
  first_seen tr = Some (swiftInstallPath w, true) /\
  exists pkg pre,
    swiftPackage_ w "5.5.0" Fixture.windows = Returns pkg /\
    tr = (pre ++ fst (setupRequiredTools pkg w (length pre)))%list /\
    result_of (install "5.5.0" Fixture.windows) w
    = snd (setupRequiredTools pkg w (length pre)) /\
    last pre (CoreDebug EmptyString)
    = CoreDebug ("Swift installed at " ++ quoted (swiftInstallPath w)).
Proof.
  intros w tr. split; [reflexivity |]. split; [reflexivity |].
  exact (install_ends_in_provisioning w "5.5.0" Fixture.windows eq_refl eq_refl).
Defined.

(** ** More on the provisioner *)

Lemma feed_payload cs :
  forall payload w t,
    feed payload_listeners cs payload w t
    = (map CoreError (stderr_of cs), Returns (payload ++ stdout_of cs)).
Proof.
  induction cs as [| c cs IH]; intros payload w t.
  - cbn. rewrite append_empty. reflexivity.
  - destruct c as [data | data]; cbn [feed stdout_of stderr_of].
    + unfold bind. cbn [payload_listeners ret]. cbn -[String.append feed].
      rewrite IH. rewrite append_assoc. reflexivity.
    + unfold bind. cbn [payload_listeners]. unfold core.error, emit, bind, ret.
      cbn -[String.append feed]. rewrite IH. reflexivity.
Qed.

Lemma stringify_run v w t : JSON.stringify v w t = ([], Returns (shown w v)).
Proof. destruct v; reflexivity. Qed.

Lemma getVsToolsPath_locating : emits (fun e => locating e = true) getVsToolsPath.
Proof.
  unfold getVsToolsPath, process.env, core.debug, core.setFailed, io.which,
    fs.existsSync.
  emits_all; reflexivity.
Qed.

Lemma getVsToolsPath_returns_clean w t vswhereExe :
  snd (getVsToolsPath w t) = Returns vswhereExe ->
  marked_failed (fst (getVsToolsPath w t)) = false.
Proof.
  unfold getVsToolsPath, bind, try_catch. cbn.
  destruct (given (env w "VSWHERE_PATH")); cbn.
  - destruct (env w "VSWHERE_PATH"); cbn; [| discriminate].
    run_step; [reflexivity | discriminate].
  - destruct (which_ w t "vswhere"); cbn.
    + run_step; [reflexivity | discriminate].
    + destruct (env w "ProgramFiles(x86)"); cbn; [| discriminate].
      run_step; [reflexivity | discriminate].
Qed.

Lemma exits_app a b : exits (a ++ b) = (exits a ++ exits b)%list.
Proof.
  induction a as [| e a IH]; [reflexivity |].
  destruct e; simpl; rewrite ?IH; reflexivity.
Qed.

Lemma locating_facts d :
  Forall (fun e => locating e = true) d ->
  exits d = [] /\ first_exit d = None /\ first_stdout d = None
  /\ registered d = [].
Proof.
  induction 1 as [| e d He _ IH]; [repeat split |].
  destruct e; simpl in *; try discriminate; exact IH.
Qed.

Lemma first_exit_app a b :
  first_exit a = None -> first_exit (a ++ b) = first_exit b.
Proof.
  induction a as [| e a IH]; [reflexivity |].
  destruct e; simpl; try exact IH. discriminate.
Qed.

Lemma first_stdout_app a b :
  first_stdout a = None -> first_stdout (a ++ b) = first_stdout b.
Proof.
  induction a as [| e a IH]; [reflexivity |].
  destruct e; simpl; try exact IH. discriminate.
Qed.

Lemma marked_failed_app a b :
  marked_failed (a ++ b) = marked_failed a || marked_failed b.
Proof. apply existsb_app. Qed.

Arguments JSON.stringify : simpl never.
Arguments setupSupportFiles : simpl never.
Arguments getVsToolsPath : simpl never.
Arguments index0 : simpl never.
Arguments get : simpl never.
Arguments truthy : simpl never.
Arguments toString : simpl never.
Arguments converts : simpl never.
Arguments feed : simpl never.

Lemma bind_pure {A B : Type} (m : M A) (k : A -> M B) w t a :
  m w t = ([], Returns a) -> bind m k w t = k a w t.
Proof.
  intros H. unfold bind. rewrite H. cbn. symmetry. apply surjective_pairing.
Qed.

Lemma bind_stringify {B : Type} v (k : string -> M B) w t :
  bind (JSON.stringify v) k w t = k (shown w v) w t.
Proof. apply bind_pure, stringify_run. Qed.

Lemma feed_payload_empty cs w t :
  feed payload_listeners cs EmptyString w t
  = (map CoreError (stderr_of cs), Returns (stdout_of cs)).
Proof. apply feed_payload. Qed.

Lemma exits_errors l : exits (map CoreError l) = [].
Proof. induction l; simpl; auto. Qed.

Lemma marked_failed_errors l : marked_failed (map CoreError l) = false.
Proof. induction l; simpl; auto. Qed.

Lemma last_app_cons {A : Type} (a : list A) x b d :
  last (a ++ x :: b) d = last (x :: b) d.
Proof.
  induction a as [| y a IH]; [reflexivity |].
  simpl app. rewrite <- IH. destruct a; reflexivity.
Qed.

Lemma last_cons_app_cons {A : Type} (y : A) a x b d :
  last (y :: a ++ x :: b) d = last (x :: b) d.
Proof. apply (last_app_cons (y :: a)). Qed.

(** One step of a run of the provisioner: the listeners are fed, or the
    answer of the next call or the outcome of the next read is split. *)
Ltac prov_step :=
  match goal with
  | |- context [feed payload_listeners ?cs EmptyString ?w ?t] =>
      rewrite (feed_payload_empty cs w t); cbn
  | |- context [bind (JSON.stringify ?v) ?k ?w ?t] =>
      rewrite (bind_stringify v k w t); cbn
  | |- context [exec_ ?w ?t ?c ?a ?v] =>
      let out := fresh "out" in
      destruct (exec_ w t c a v) as [out [? | ?]] eqn:?; cbn
  | |- context [parse_ ?w ?x] => case_on (parse_ w x)
  | |- context [index0 ?v] => case_on (index0 v)
  | |- context [get ?v ?k] => case_on (get v k)
  | |- context [truthy ?v] => case_on (truthy v)
  | |- context [template ?v] => unfold template
  | |- context [if converts ?v then _ else _] => case_on (converts v)
  | |- context [(?c =? 0)%Z] => case_on (c =? 0)%Z
  end.

(** The start of a run of the provisioner: the search for the query tool is
    taken as a whole, and nothing is left to prove when it throws unless the
    goal speaks of that case. *)
Ltac prov_start w t :=
  unfold setupRequiredTools; unfold bind at 1;
  let Hloc := fresh "Hloc" in
  let Hclean := fresh "Hclean" in
  pose proof (getVsToolsPath_locating w t) as Hloc;
  pose proof (getVsToolsPath_returns_clean w t) as Hclean;
  let d := fresh "d" in
  destruct (getVsToolsPath w t) as [d [? | ?]]; cbn [fst snd] in *;
  apply locating_facts in Hloc;
  let Hx := fresh "Hx" in let Hfe := fresh "Hfe" in
  let Hfs := fresh "Hfs" in let Hreg := fresh "Hreg" in
  destruct Hloc as [Hx [Hfe [Hfs Hreg]]];
  try (specialize (Hclean _ eq_refl); cbn).

(** Observations on a trace that starts with the search for the query
    tool. *)
Ltac observe :=
  repeat match goal with
    | Hfe : first_exit ?d = None, H : context [first_exit (?d ++ _)] |- _ =>
        rewrite (first_exit_app d _ Hfe) in H; cbn in H
    | Hfs : first_stdout ?d = None, H : context [first_stdout (?d ++ _)] |- _ =>
        rewrite (first_stdout_app d _ Hfs) in H; cbn in H
    | Hfe : first_exit ?d = None, H : context [first_exit ?d] |- _ =>
        rewrite Hfe in H
    | Hfs : first_stdout ?d = None, H : context [first_stdout ?d] |- _ =>
        rewrite Hfs in H
    end.

Ltac observed :=
  repeat first
    [ rewrite exits_app
    | rewrite exits_errors
    | rewrite marked_failed_app
    | rewrite marked_failed_errors
    | rewrite last_app_cons
    | rewrite last_cons_app_cons
    | match goal with H : exits _ = [] |- _ => rewrite H end
    | match goal with H : marked_failed _ = false |- _ => rewrite H end
    | progress cbn ].

(** X8. When the output of the query is not JSON, the exception of
    [JSON.parse] leaves [setupRequiredTools]: the payload in the log is the
    last event, no other process is started, and the run is not marked
    failed. *)
Theorem unparsable_query_output :
  forall w pkg t code payload err,
    let tr := fst (setupRequiredTools pkg w t) in
    first_exit tr = Some (Returns code) ->
    first_stdout tr = Some payload ->
    parse_ w payload = Throws err ->
    snd (setupRequiredTools pkg w t) = Throws err /\
    last tr (CoreDebug EmptyString) = CoreInfo ("got payload: " ++ payload) /\
    exits tr = [Returns code] /\
    marked_failed tr = false.
Proof.
  intros w pkg t code payload err tr. subst tr.
  destruct (setupRequiredTools pkg w t) as [tr r] eqn:Hrun.
  cbn [fst snd]. intros H1 H2 H3. revert Hrun.
  prov_start w t.
  - repeat prov_step;
      intros Hrun; injection Hrun as <- <-; observe;
      try discriminate H1; injection H1 as <-; injection H2 as <-;
      try congruence.
    all: repeat split; observed; congruence.
  - intros Hrun; injection Hrun as <- <-. congruence.
Qed.

Lemma unparsable_query_output_witness :
  let w := with_parse
             (Fixture.world None "Error 0x5" VUndefined Fixture.all_succeed)
             (fun _ => Throws "SyntaxError: Unexpected token E in JSON at position 0") in
  let tr := fst (setupRequiredTools (Fixture.swift "5.5.0") w 0) in
  first_exit tr = Some (Returns 0%Z) /\
  first_stdout tr = Some "Error 0x5" /\
  parse_ w "Error 0x5"
  = Throws "SyntaxError: Unexpected token E in JSON at position 0" /\
  snd (setupRequiredTools (Fixture.swift "5.5.0") w 0)
  = Throws "SyntaxError: Unexpected token E in JSON at position 0" /\
  last tr (CoreDebug EmptyString) = CoreInfo "got payload: Error 0x5" /\
  exits tr = [Returns 0%Z] /\
  marked_failed tr = false.
Proof.
  intros w tr. split; [reflexivity |]. split; [reflexivity |].
  split; [reflexivity |].
  exact (unparsable_query_output w (Fixture.swift "5.5.0") 0 0%Z "Error 0x5"
           _ eq_refl eq_refl eq_refl).
Defined.

Lemma locating_no_info d :
  Forall (fun e => locating e = true) d -> Forall (fun e => is_info e = false) d.
Proof.
  intros H. eapply Forall_impl; [| exact H].
  intros e He. destruct e; simpl in *; try reflexivity; discriminate.
Qed.

Lemma errors_no_info l : Forall (fun e => is_info e = false) (map CoreError l).
Proof. induction l; simpl; constructor; auto. Qed.

(** X9. A failure of the query is a rejection. When [exec] rejects for the
    query, because the process cannot be run or, in a world of the program,
    because it exits with a code other than 0, the rejection leaves
    [setupRequiredTools] with nothing written by [core.info], no other
    process started, and the run not marked failed.  In a world of the
    program the code [exec] resolves with is 0, and what the query wrote to
    its standard output is then written to the log as the payload. *)
Theorem rejected_query_stops_provisioning :
  forall w pkg t,
    let tr := fst (setupRequiredTools pkg w t) in
    (forall err,
        first_exit tr = Some (Throws err) ->
        snd (setupRequiredTools pkg w t) = Throws err /\
        exits tr = [Throws err] /\
        Forall (fun e => is_info e = false) tr /\
        marked_failed tr = false) /\
    (exec_rejects_nonzero w ->
     forall code payload,
       first_exit tr = Some (Returns code) ->
       first_stdout tr = Some payload ->
       code = 0%Z /\ In (CoreInfo ("got payload: " ++ payload)) tr).
Proof.
  intros w pkg t tr. subst tr.
  pose proof (getVsToolsPath_locating w t) as Hinfo.
  apply locating_no_info in Hinfo.
  destruct (setupRequiredTools pkg w t) as [tr r] eqn:Hrun.
  cbn [fst snd]. revert Hrun.
  prov_start w t.
  - repeat prov_step;
      intros Hrun; injection Hrun as <- <-;
      (split; [intros err H1 | intros Hreal code payload H1 H2]); observe;
      try discriminate H1; injection H1 as <-;
      try (resolved_with_0; split; [reflexivity |];
           injection H2 as <-; apply in_or_app; right; right;
           apply in_or_app; right; left; reflexivity).
    repeat split; observed; try reflexivity.
    apply Forall_app; split; [exact Hinfo |].
    constructor; [reflexivity | apply errors_no_info].
  - intros Hrun; injection Hrun as <- <-.
    split; [intros err H1 | intros Hreal code payload H1 H2]; congruence.
Qed.

Lemma rejected_query_stops_provisioning_witness :
  let w := with_processes
             (Fixture.world None Fixture.vs2019_text Fixture.vs2019
                Fixture.all_succeed)
             (fun c => if String.eqb c Fixture.vswhere_command
                       then ([Stderr "Error 0x57: The parameter is incorrect"],
                             87%Z)
                       else ([], 0%Z)) in
  let tr := fst (setupRequiredTools (Fixture.swift "5.5.0") w 0) in
  let err := "Error: The process '" ++ Fixture.vswhere_command
             ++ "' failed with exit code 87" in
  exec_rejects_nonzero w /\
  first_exit tr = Some (Throws err) /\
  snd (setupRequiredTools (Fixture.swift "5.5.0") w 0) = Throws err /\
  exits tr = [Throws err] /\
  Forall (fun e => is_info e = false) tr /\
  marked_failed tr = false.
Proof.
  intros w tr err.
  split; [apply with_processes_rejects_nonzero |].
  split; [reflexivity |].
  exact (proj1 (rejected_query_stops_provisioning w (Fixture.swift "5.5.0") 0)
           err eq_refl).
Defined.

(** X10. When the [installationPath] of the first record is falsy (absent,
    [null], the empty string), the run is marked failed with the message
    that names version 16, [setupRequiredTools] returns, and the modify
    engine is not started. *)
Theorem first_record_without_path :
  forall w pkg t code payload v vs installationPath,
    let tr := fst (setupRequiredTools pkg w t) in
    first_exit tr = Some (Returns code) ->
    first_stdout tr = Some payload ->
    parse_ w payload = Returns v ->
    index0 v = Returns vs ->
    get vs "installationPath" = Returns installationPath ->
    truthy installationPath = false ->
    snd (setupRequiredTools pkg w t) = Returns tt /\
    last tr (CoreDebug EmptyString)
    = CoreSetFailed "Unable to find any visual studio installation for version: 16." /\
    exits tr = [Returns code].
Proof.
  intros w pkg t code payload v vs ip tr. subst tr.
  destruct (setupRequiredTools pkg w t) as [tr r] eqn:Hrun.
  cbn [fst snd]. intros H1 H2 H3 H4 H5 H6. revert Hrun.
  prov_start w t.
  - repeat prov_step;
      intros Hrun; injection Hrun as <- <-; observe;
      try discriminate H1; injection H1 as <-; injection H2 as <-;
      try congruence.
    all: repeat split; observed; reflexivity.
  - intros Hrun; injection Hrun as <- <-. congruence.
Qed.

Lemma first_record_without_path_witness :
  let w := Fixture.world None "[{}]" (VArr [VObj []]) Fixture.all_succeed in
  let tr := fst (setupRequiredTools (Fixture.swift "5.5.0") w 0) in
  first_exit tr = Some (Returns 0%Z) /\
  first_stdout tr = Some "[{}]" /\
  parse_ w "[{}]" = Returns (VArr [VObj []]) /\
  index0 (VArr [VObj []]) = Returns (VObj []) /\
  get (VObj []) "installationPath" = Returns VUndefined /\
  truthy VUndefined = false /\
  snd (setupRequiredTools (Fixture.swift "5.5.0") w 0) = Returns tt /\
  last tr (CoreDebug EmptyString)
  = CoreSetFailed "Unable to find any visual studio installation for version: 16." /\
  exits tr = [Returns 0%Z].
Proof.
  intros w tr. do 6 (split; [reflexivity |]).
  exact (first_record_without_path w (Fixture.swift "5.5.0") 0 0%Z "[{}]"
           (VArr [VObj []]) (VObj []) VUndefined
           eq_refl eq_refl eq_refl eq_refl eq_refl eq_refl).
Defined.

(** X11. When reading [installationPath] from the first element of the
    parsed output throws, as it does when the element is [undefined] or
    [null], that exception leaves [setupRequiredTools] after the element has
    been written to the log: the modify engine is not started and the run is
    not marked failed. *)
Theorem absent_first_record :
  forall w pkg t code payload v vs err,
    let tr := fst (setupRequiredTools pkg w t) in
    first_exit tr = Some (Returns code) ->
    first_stdout tr = Some payload ->
    parse_ w payload = Returns v ->
    index0 v = Returns vs ->
    get vs "installationPath" = Throws err ->
    snd (setupRequiredTools pkg w t) = Throws err /\
    last tr (CoreDebug EmptyString) = CoreInfo ("obj: " ++ shown w vs) /\
    exits tr = [Returns code] /\
    marked_failed tr = false.
Proof.
  intros w pkg t code payload v vs err tr. subst tr.
  destruct (setupRequiredTools pkg w t) as [tr r] eqn:Hrun.
  cbn [fst snd]. intros H1 H2 H3 H4 H5. revert Hrun.
  prov_start w t.
  - repeat prov_step;
      intros Hrun; injection Hrun as <- <-; observe;
      try discriminate H1; injection H1 as <-; injection H2 as <-;
      try congruence.
    all: repeat split; observed; congruence.
  - intros Hrun; injection Hrun as <- <-. congruence.
Qed.

Lemma absent_first_record_witness :
  let w := Fixture.world None "[]" (VArr []) Fixture.all_succeed in
  let tr := fst (setupRequiredTools (Fixture.swift "5.5.0") w 0) in
  let err :=
    "TypeError: Cannot read properties of undefined (reading 'installationPath')" in
  first_exit tr = Some (Returns 0%Z) /\
  first_stdout tr = Some "[]" /\
  parse_ w "[]" = Returns (VArr []) /\
  index0 (VArr []) = Returns VUndefined /\
  get VUndefined "installationPath" = Throws err /\
  snd (setupRequiredTools (Fixture.swift "5.5.0") w 0) = Throws err /\
  last tr (CoreDebug EmptyString) = CoreInfo ("obj: " ++ shown w VUndefined) /\
  exits tr = [Returns 0%Z] /\
  marked_failed tr = false.
Proof.
  intros w tr err. do 5 (split; [reflexivity |]).
  exact (absent_first_record w (Fixture.swift "5.5.0") 0 0%Z "[]"
           (VArr []) VUndefined err
           eq_refl eq_refl eq_refl eq_refl eq_refl).
Defined.

(** X12. When the first record has a truthy installation path, the modify
    engine is not started unless that path converts to a string and the
    record names the engine.  An installation path that does not convert, an
    object with a property [toString] of its own, makes the template literal
    throw a [TypeError]; and reading [setupEngineFilePath] from the
    [properties] of a record without [properties] throws.  Either exception
    leaves [setupRequiredTools] after the record has been written to the
    log, with no other process started and the run not marked failed. *)
Theorem engine_path_unavailable :
  forall w pkg t code payload v vs installationPath,
    let tr := fst (setupRequiredTools pkg w t) in
    let stopped err :=
      snd (setupRequiredTools pkg w t) = Throws err /\
      last tr (CoreDebug EmptyString) = CoreInfo ("obj: " ++ shown w vs) /\
      exits tr = [Returns code] /\
      marked_failed tr = false in
    first_exit tr = Some (Returns code) ->
    first_stdout tr = Some payload ->
    parse_ w payload = Returns v ->
    index0 v = Returns vs ->
    get vs "installationPath" = Returns installationPath ->
    truthy installationPath = true ->
    (converts installationPath = false ->
     stopped "TypeError: Cannot convert object to primitive value") /\
    (forall properties err,
        converts installationPath = true ->
        get vs "properties" = Returns properties ->
        get properties "setupEngineFilePath" = Throws err ->
        stopped err).
Proof.
  intros w pkg t code payload v vs ip tr stopped. subst stopped tr.
  destruct (setupRequiredTools pkg w t) as [tr r] eqn:Hrun.
  cbn [fst snd]. intros H1 H2 H3 H4 H5 H6. revert Hrun.
  prov_start w t.
  - repeat prov_step;
      intros Hrun; injection Hrun as <- <-; observe;
      try discriminate H1; injection H1 as <-; injection H2 as <-;
      try congruence.
    all: (split; [intros Hc | intros props err Hc H7 H8]); try congruence.
    all: repeat split; observed; congruence.
  - intros Hrun; injection Hrun as <- <-. congruence.
Qed.

Lemma engine_path_unavailable_witness :
  let text := "[{" ++ quoted "installationPath" ++ ":" ++ quoted "C:\\VS" ++ "}]" in
  let vs := VObj [("installationPath", VStr "C:\VS")] in
  let w := Fixture.world None text (VArr [vs]) Fixture.all_succeed in
  let tr := fst (setupRequiredTools (Fixture.swift "5.5.0") w 0) in
  let err :=
    "TypeError: Cannot read properties of undefined (reading 'setupEngineFilePath')" in
  let text' := "[{" ++ quoted "installationPath" ++ ":{" ++ quoted "toString"
               ++ ":1}}]" in
  let path' := VObj [("toString", VNum "1")] in
  let vs' := VObj [("installationPath", path')] in
  let w' := Fixture.world None text' (VArr [vs']) Fixture.all_succeed in
  let tr' := fst (setupRequiredTools (Fixture.swift "5.5.0") w' 0) in
  (first_exit tr = Some (Returns 0%Z) /\
   first_stdout tr = Some text /\
   parse_ w text = Returns (VArr [vs]) /\
   index0 (VArr [vs]) = Returns vs /\
   get vs "installationPath" = Returns (VStr "C:\VS") /\
   truthy (VStr "C:\VS") = true /\
   converts (VStr "C:\VS") = true /\
   get vs "properties" = Returns VUndefined /\
   get VUndefined "setupEngineFilePath" = Throws err /\
   snd (setupRequiredTools (Fixture.swift "5.5.0") w 0) = Throws err /\
   last tr (CoreDebug EmptyString) = CoreInfo ("obj: " ++ shown w vs) /\
   exits tr = [Returns 0%Z] /\
   marked_failed tr = false) /\
  (first_exit tr' = Some (Returns 0%Z) /\
   first_stdout tr' = Some text' /\
   parse_ w' text' = Returns (VArr [vs']) /\
   index0 (VArr [vs']) = Returns vs' /\
   get vs' "installationPath" = Returns path' /\
   truthy path' = true /\
   converts path' = false /\
   snd (setupRequiredTools (Fixture.swift "5.5.0") w' 0)
   = Throws "TypeError: Cannot convert object to primitive value" /\
   last tr' (CoreDebug EmptyString) = CoreInfo ("obj: " ++ shown w' vs') /\
   exits tr' = [Returns 0%Z] /\
   marked_failed tr' = false).
Proof.
  intros text vs w tr err text' path' vs' w' tr'. split.
  - do 9 (split; [reflexivity |]).
    exact (proj2 (engine_path_unavailable w (Fixture.swift "5.5.0") 0 0%Z text
                    (VArr [vs]) vs (VStr "C:\VS")
                    eq_refl eq_refl eq_refl eq_refl eq_refl eq_refl)
             VUndefined err eq_refl eq_refl eq_refl).
  - do 7 (split; [reflexivity |]).
    exact (proj1 (engine_path_unavailable w' (Fixture.swift "5.5.0") 0 0%Z text'
                    (VArr [vs']) vs' path'
                    eq_refl eq_refl eq_refl eq_refl eq_refl eq_refl)
             eq_refl).
Defined.

Lemma exits_setupSupportFiles pkg p w t :
  (length (exits (fst (setupSupportFiles pkg p w t))) <= 1)%nat.
Proof.
  unfold setupSupportFiles, bind, lift, path.join, exec0, core.info, emit, reads.
  cbn.
  destruct (semver.lt (Package.version pkg) "5.4.2") as [[|] | e]; cbn; try lia.
  destruct p; cbn; try lia.
  match goal with |- context [status ?r] => destruct (status r) end; cbn; lia.
Qed.




Lemma setupSupportFiles_clean pkg p w t :
  marked_failed (fst (setupSupportFiles pkg p w t)) = false.
Proof.
  pose proof (setupSupportFiles_never_fails pkg p w t) as H.
  unfold marked_failed. induction H as [| e d He _ IH]; [reflexivity |].
  simpl. rewrite He. exact IH.
Qed.


Lemma failures_app a b : failures (a ++ b) = (failures a ++ failures b)%list.
Proof.
  induction a as [| e a IH]; [reflexivity |].
  destruct e; simpl; rewrite ?IH; reflexivity.
Qed.

Lemma failures_errors l : failures (map CoreError l) = [].
Proof. induction l; simpl; auto. Qed.

Lemma failures_clean d : marked_failed d = false -> failures d = [].
Proof.
  induction d as [| e d IH]; [reflexivity |].
  destruct e; simpl; try exact IH. discriminate.
Qed.

Lemma getVsToolsPath_failures w t :
  failures (fst (getVsToolsPath w t)) = []
  \/ failures (fst (getVsToolsPath w t))
     = ["Action requires the path to where vswhere.exe exists"].
Proof.
  unfold getVsToolsPath, bind, try_catch. cbn.
  destruct (given (env w "VSWHERE_PATH")); cbn.
  - destruct (env w "VSWHERE_PATH"); cbn; [| left; reflexivity].
    run_step; [left | right]; reflexivity.
  - destruct (which_ w t "vswhere"); cbn.
    + run_step; [left | right]; reflexivity.
    + destruct (env w "ProgramFiles(x86)"); cbn; [| left; reflexivity].
      run_step; [left | right]; reflexivity.
Qed.

(** X13. In a world of the program the test of the exit code of the modify
    engine never fails, a failing engine being a rejection of [exec]: a run
    of [setupRequiredTools] is marked failed at most once, for a missing
    query tool or for a first record without an installation path, and in no
    run with the message that gives the exit code of the engine. *)
Theorem engine_exit_check_never_fails :
  forall w pkg t,
    exec_rejects_nonzero w ->
    let tr := fst (setupRequiredTools pkg w t) in
    failures tr = []
    \/ failures tr = ["Action requires the path to where vswhere.exe exists"]
    \/ failures tr
       = ["Unable to find any visual studio installation for version: 16."].
Proof.
  intros w pkg t Hreal tr. subst tr.
  pose proof (getVsToolsPath_failures w t) as Hf. revert Hf.
  destruct (setupRequiredTools pkg w t) as [tr r] eqn:Hrun.
  cbn [fst snd]. revert Hrun.
  prov_start w t.
  - repeat prov_step;
      intros Hrun; injection Hrun as <- <-; intros _;
      resolved_with_0;
      try match goal with E : (0 =? 0)%Z = false |- _ => discriminate E end;
      rewrite ?failures_app, ?failures_errors, (failures_clean _ Hclean);
      cbn; rewrite ?failures_app, ?failures_errors; cbn;
      rewrite ?(failures_clean _ (setupSupportFiles_clean _ _ _ _));
      first [left; reflexivity | right; right; reflexivity].
  - intros Hrun; injection Hrun as <- <-. intros [Hf | Hf]; rewrite Hf; tauto.
Qed.

Lemma engine_exit_check_never_fails_witness :
  let w := with_processes
             (Fixture.world None Fixture.vs2019_text Fixture.vs2019
                Fixture.all_succeed)
             (fun c => if String.eqb c Fixture.vswhere_command
                       then ([Stdout Fixture.vs2019_text], 0%Z)
                       else ([], 1603%Z)) in
  let tr := fst (setupRequiredTools (Fixture.swift "5.5.0") w 0) in
  exec_rejects_nonzero w /\
  exits tr
  = [Returns 0%Z;
     Throws ("Error: The process '" ++ Fixture.engine_command
             ++ "' failed with exit code 1603")] /\
  failures tr = [].
Proof.
  intros w tr.
  assert (Hreal : exec_rejects_nonzero w)
    by apply with_processes_rejects_nonzero.
  split; [exact Hreal |]. split; [reflexivity |].
  destruct (engine_exit_check_never_fails w (Fixture.swift "5.5.0") 0 Hreal)
    as [H | [H | H]]; [exact H | discriminate H | discriminate H].
Defined.

(** X14. When [exec] rejects for the modify engine, because the process
    cannot be run or, in a world of the program, because it exits with a
    code other than 0, the rejection leaves [setupRequiredTools]: the start
    of the engine is the last event, no third process is started, and the
    run is not marked failed. *)
Theorem engine_rejection_propagates :
  forall w pkg t c0 err rest,
    let tr := fst (setupRequiredTools pkg w t) in
    exits tr = c0 :: Throws err :: rest ->
    rest = [] /\
    snd (setupRequiredTools pkg w t) = Throws err /\
    (exists commandLine out,
        last tr (CoreDebug EmptyString)
        = Exec commandLine [] false (mk_exec_result out (Throws err))) /\
    marked_failed tr = false.
Proof.
  intros w pkg t c0 err rest tr. subst tr.
  destruct (setupRequiredTools pkg w t) as [tr r] eqn:Hrun.
  cbn [fst snd]. intros H1. revert Hrun.
  prov_start w t.
  - repeat prov_step;
      intros Hrun; injection Hrun as <- <-;
      revert H1; observed; intros H1;
      try discriminate H1.
    all: injection H1 as _ <- <-.
    all: split; [reflexivity |]; split; [reflexivity |]; split;
      [do 2 eexists; observed; reflexivity | observed; reflexivity].
  - intros Hrun; injection Hrun as <- <-. rewrite Hx in H1. discriminate.
Qed.

Lemma engine_rejection_propagates_witness :
  let w := with_exec
             (Fixture.world None Fixture.vs2019_text Fixture.vs2019
                Fixture.all_succeed)
             (fun c => if String.eqb c Fixture.vswhere_command
                       then mk_exec_result [Stdout Fixture.vs2019_text] (Returns 0%Z)
                       else mk_exec_result [] (Throws "Error: spawn ENOENT")) in
  let tr := fst (setupRequiredTools (Fixture.swift "5.5.0") w 0) in
  exits tr = [Returns 0%Z; Throws "Error: spawn ENOENT"] /\
  snd (setupRequiredTools (Fixture.swift "5.5.0") w 0)
  = Throws "Error: spawn ENOENT" /\
  marked_failed tr = false.
Proof.
  intros w tr. split; [reflexivity |].
  pose proof (engine_rejection_propagates w (Fixture.swift "5.5.0") 0
                (Returns 0%Z) "Error: spawn ENOENT" [] eq_refl) as H.
  cbv zeta in H. destruct H as [_ [H1 [_ H2]]]. split; assumption.
Defined.

Lemma pre_clock (d : list event) q l i1 i2 i3 x t :
  (length (d ++ q :: map CoreError l ++ [i1; i2; i3; x]) + t
   = S (S (S (S (S (length (map CoreError l) + (length d + t)))))))%nat.
Proof. rewrite length_app. simpl. rewrite length_app. simpl. lia. Qed.

Lemma pre_split (d : list event) q m i1 i2 i3 x tail :
  (d ++ q :: m ++ i1 :: i2 :: i3 :: x :: tail
   = (d ++ q :: m ++ [i1; i2; i3; x]) ++ tail)%list.
Proof.
  rewrite <- app_assoc. simpl. rewrite <- app_assoc. reflexivity.
Qed.

(** X15. When the modify engine exits with code 0, the rest of the run is
    the run of [setupSupportFiles] on the package and on the
    [installationPath] of the first record of the parsed output of the
    query, a truthy value; its outcome is the outcome of
    [setupRequiredTools], and nothing before it marks the run failed. *)
Theorem provisioning_ends_in_support_files :
  forall w pkg t c0 rest,
    let tr := fst (setupRequiredTools pkg w t) in
    exits tr = c0 :: Returns 0%Z :: rest ->
    exists payload v vs installationPath pre,
      first_stdout tr = Some payload /\
      parse_ w payload = Returns v /\
      index0 v = Returns vs /\
      get vs "installationPath" = Returns installationPath /\
      truthy installationPath = true /\
      tr = (pre ++ fst (setupSupportFiles pkg installationPath w (length pre + t)))%list /\
      snd (setupRequiredTools pkg w t)
      = snd (setupSupportFiles pkg installationPath w (length pre + t)) /\
      exits pre = [c0; Returns 0%Z] /\
      marked_failed pre = false.
Proof.
  intros w pkg t c0 rest tr. subst tr.
  destruct (setupRequiredTools pkg w t) as [tr r] eqn:Hrun.
  cbn [fst snd]. intros H1. revert Hrun.
  prov_start w t.
  - repeat prov_step;
      intros Hrun; injection Hrun as <- <-;
      revert H1; observed; intros H1;
      try discriminate H1.
    all: injection H1 as <- -> _.
    all: try (match goal with
              | E : (0 =? 0)%Z = false |- _ => cbn in E; discriminate E
              end).
    all: match goal with
         | |- context [(?d ++ ?q :: map CoreError ?l
                         ++ ?i1 :: ?i2 :: ?i3 :: ?x
                         :: fst (setupSupportFiles _ ?ip _ _))%list] =>
             match goal with
             | E : parse_ _ ?p = Returns ?v, E0 : index0 ?v = Returns ?vs |- _ =>
                 exists p, v, vs, ip,
                   (d ++ q :: map CoreError l ++ [i1; i2; i3; x])%list
             end;
             rewrite pre_clock, pre_split
         end.
    all: repeat split; try assumption; try reflexivity.
    all: try (rewrite <- app_assoc, first_stdout_app by assumption; reflexivity).
    all: observed; reflexivity.
  - intros Hrun; injection Hrun as <- <-. rewrite Hx in H1. discriminate.
Qed.

Lemma provisioning_ends_in_support_files_witness :
  let w := Fixture.world None Fixture.vs2019_text Fixture.vs2019
             Fixture.all_succeed in
  let pkg := Fixture.swift "5.4.1" in
  let tr := fst (setupRequiredTools pkg w 0) in
  exits tr = [Returns 0%Z; Returns 0%Z; Returns 0%Z] /\
  exists payload v vs installationPath pre,
    first_stdout tr = Some payload /\
    parse_ w payload = Returns v /\
    index0 v = Returns vs /\
    get vs "installationPath" = Returns installationPath /\
    truthy installationPath = true /\
    tr = (pre ++ fst (setupSupportFiles pkg installationPath w (length pre + 0)))%list /\
    snd (setupRequiredTools pkg w 0)
    = snd (setupSupportFiles pkg installationPath w (length pre + 0)) /\
    exits pre = [Returns 0%Z; Returns 0%Z] /\
    marked_failed pre = false.
Proof.
  intros w pkg tr. split; [reflexivity |].
  exact (provisioning_ends_in_support_files w pkg 0 (Returns 0%Z)
           [Returns 0%Z] eq_refl).
Defined.

Lemma started_app a b : started (a ++ b) = (started a ++ started b)%list.
Proof.
  induction a as [| e a IH]; [reflexivity |].
  destruct e; simpl; rewrite ?IH; reflexivity.
Qed.

Lemma started_errors l : started (map CoreError l) = [].
Proof. induction l; simpl; auto. Qed.

Lemma locating_started d :
  Forall (fun e => locating e = true) d -> started d = [].
Proof.
  induction 1 as [| e d He _ IH]; [reflexivity |].
  destruct e; simpl in *; try discriminate; exact IH.
Qed.

(** X16. The processes [setupRequiredTools] starts do not depend on the
    package. The first is the query tool [getVsToolsPath] returned, asked
    for all products in JSON for version 16; the second, when there is one,
    is the file named by [properties.setupEngineFilePath] of the first
    record, asked to modify the installation at the record's
    [installationPath] with the first component bare and the second after
    [--add]. Both are started without separate arguments. *)
Theorem provisioning_command_lines :
  forall w pkg t,
    let tr := fst (setupRequiredTools pkg w t) in
    (forall query rest,
        started tr = query :: rest ->
        exists vswhereExe,
          snd (getVsToolsPath w t) = Returns vswhereExe /\
          query = (quoted vswhereExe
                   ++ " -products * -format json -utf8 -latest -version "
                   ++ quoted "16", [], false)) /\
    (forall query modify rest,
        started tr = query :: modify :: rest ->
        exists payload v vs installationPath properties setupEngineFilePath,
          first_stdout tr = Some payload /\
          parse_ w payload = Returns v /\
          index0 v = Returns vs /\
          get vs "installationPath" = Returns installationPath /\
          get vs "properties" = Returns properties /\
          get properties "setupEngineFilePath" = Returns setupEngineFilePath /\
          modify = (quoted (toString setupEngineFilePath)
                    ++ " modify  --installPath "
                    ++ quoted (toString installationPath)
                    ++ " Microsoft.VisualStudio.Component.VC.Tools.x86.x64 --add "
                    ++ quoted "Microsoft.VisualStudio.Component.Windows10SDK.17763"
                    ++ " --quiet", [], false)).
Proof.
  intros w pkg t tr. subst tr.
  pose proof (getVsToolsPath_locating w t) as Hst.
  apply locating_started in Hst.
  destruct (setupRequiredTools pkg w t) as [tr r] eqn:Hrun.
  cbn [fst snd]. revert Hrun.
  prov_start w t.
  - repeat prov_step;
      intros Hrun; injection Hrun as <- <-;
      (split; [intros query rest H1 | intros query modify rest H1]);
      rewrite started_app, Hst in H1; cbn in H1;
      rewrite ?started_app, ?started_errors in H1; cbn in H1;
      try discriminate H1.
    all: try (injection H1 as <- _; eexists; split; reflexivity).
    all: injection H1 as _ <- _.
    all: match goal with
         | E : parse_ _ ?p = Returns ?v, E0 : index0 ?v = Returns ?vs,
           E1 : get ?vs "installationPath" = Returns ?ip,
           E2 : get ?vs "properties" = Returns ?props,
           E3 : get ?props "setupEngineFilePath" = Returns ?engine |- _ =>
             exists p, v, vs, ip, props, engine
         end.
    all: repeat split; try assumption.
    all: rewrite first_stdout_app by assumption; reflexivity.
  - intros Hrun; injection Hrun as <- <-.
    split; [intros query rest H1 | intros query modify rest H1];
      rewrite Hst in H1; discriminate.
Qed.

Lemma provisioning_command_lines_witness :
  let w := Fixture.world None Fixture.vs2019_text Fixture.vs2019
             Fixture.all_succeed in
  let tr := fst (setupRequiredTools (Fixture.swift "5.5.0") w 0) in
  started tr
  = [(Fixture.vswhere_command, [], false); (Fixture.engine_command, [], false)] /\
  exists vswhereExe,
    snd (getVsToolsPath w 0) = Returns vswhereExe /\
    (Fixture.vswhere_command, @nil string, false)
    = (quoted vswhereExe
       ++ " -products * -format json -utf8 -latest -version "
       ++ quoted "16", [], false).
Proof.
  intros w tr. split; [reflexivity |].
  exact (proj1 (provisioning_command_lines w (Fixture.swift "5.5.0") 0)
           (Fixture.vswhere_command, [], false)
           [(Fixture.engine_command, [], false)] eq_refl).
Defined.

(** X17. With the listeners of [setupRequiredTools], [exec] appends the
    chunks of the standard output to the payload in the order they arrive,
    whatever chunks of the standard error come between them, and hands every
    chunk of the standard error to [core.error], in order; when the process
    cannot be run the rejection is the outcome. *)
Theorem exec_collects_output :
  forall w t commandLine args verbatim payload,
    let r := exec_ w t commandLine args verbatim in
    exec commandLine args verbatim payload_listeners payload w t
    = (Exec commandLine args verbatim r :: map CoreError (stderr_of (output r)),
       match status r with
       | Returns code => Returns (code, payload ++ stdout_of (output r))
       | Throws e => Throws e
       end).
Proof.
  intros w t commandLine args verbatim payload r.
  unfold exec. fold r. rewrite feed_payload. cbn [fst snd].
  destruct (status r); reflexivity.
Qed.

(** X18. A run of [setupRequiredTools] starts at most three processes and
    registers no directory, and all it does is logging, the search for the
    query tool, child processes, and its own three failure messages. *)
Theorem provisioning_footprint :
  forall w pkg t,
    let tr := fst (setupRequiredTools pkg w t) in
    (length (exits tr) <= 3)%nat /\
    registered tr = [] /\
    Forall (fun e => provisioning e = true) tr.
Proof.
  intros w pkg t tr.
  assert (Hprov : Forall (fun e => provisioning e = true) tr)
    by apply setupRequiredTools_provisioning.
  split; [| split; [apply registered_provisioning, Hprov | exact Hprov]].
  clear Hprov. subst tr.
  destruct (setupRequiredTools pkg w t) as [tr r] eqn:Hrun.
  cbn [fst snd]. revert Hrun.
  prov_start w t.
  - repeat prov_step;
      intros Hrun; injection Hrun as <- <-; observed; try lia.
    all: match goal with
         | |- context [setupSupportFiles ?pkg ?p ?w ?t] =>
             pose proof (exits_setupSupportFiles pkg p w t)
         end; lia.
  - intros Hrun; injection Hrun as <- <-. rewrite Hx. simpl. lia.
Qed.

(** ** Failures of the child processes *)






(** ** More on the support files and on the tool lookup *)

(** X19. Below the threshold, with a string for the installation path,
    [setupSupportFiles] starts the copy and nothing else: when [exec]
    resolves for the copy, the code it resolves with is written to the log
    and the function returns; when [exec] rejects, the rejection is the
    outcome and nothing is written. *)
Theorem support_files_outcome :
  forall w pkg (vsInstallPath : string) t,
    semver.lt (Package.version pkg) "5.4.2" = Returns true ->
    let copy := Exec "cmd /c" [copy_argument w vsInstallPath] true in
    let r := exec_ w t "cmd /c" [copy_argument w vsInstallPath] true in
    setupSupportFiles pkg (VStr vsInstallPath) w t
    = match status r with
      | Returns code =>
          ([copy r;
            CoreInfo ("Ran command for swift and exited with code: "
                      ++ string_of_Z code)],
           Returns tt)
      | Throws e => ([copy r], Throws e)
      end.
Proof.
  intros w pkg vsInstallPath t Hlt copy r. subst copy r.
  unfold setupSupportFiles, bind, lift, exec0, core.info, emit, copy_argument.
  rewrite Hlt. cbn.
  match goal with |- context [status ?r] => destruct (status r) end;
    reflexivity.
Qed.

Lemma support_files_outcome_witness :
  let w := with_processes
             (Fixture.world None Fixture.vs2019_text Fixture.vs2019
                Fixture.all_succeed)
             (fun c => if String.eqb c "cmd /c" then ([], 1%Z) else ([], 0%Z)) in
  let err := "Error: The process 'cmd /c' failed with exit code 1" in
  let copy := Exec "cmd /c" [copy_argument w Fixture.vs_path] true
                (mk_exec_result [] (Throws err)) in
  semver.lt "5.4.1" "5.4.2" = Returns true /\
  setupSupportFiles (Fixture.swift "5.4.1") (VStr Fixture.vs_path) w 0
  = ([copy], Throws err).
Proof.
  intros w err copy. split; [reflexivity |].
  exact (support_files_outcome w (Fixture.swift "5.4.1") Fixture.vs_path 0
           eq_refl).
Defined.

(** X20. [setupSupportFiles] is given what [JSON.parse] produced. For an
    installation path that is not a string: below the threshold [path.join]
    throws a [TypeError] and no process is started; at or above the
    threshold the path is not looked at and the function returns. *)
Theorem support_files_path_not_a_string :
  forall w pkg (vsInstallPath : value) t,
    (forall s, vsInstallPath <> VStr s) ->
    (semver.lt (Package.version pkg) "5.4.2" = Returns true ->
     setupSupportFiles pkg vsInstallPath w t
     = ([], Throws "TypeError [ERR_INVALID_ARG_TYPE]: The path argument must be of type string")) /\
    (semver.lt (Package.version pkg) "5.4.2" = Returns false ->
     setupSupportFiles pkg vsInstallPath w t = ([], Returns tt)).
Proof.
  intros w pkg p t Hp.
  unfold setupSupportFiles, bind, lift. split; intros Hlt; rewrite Hlt; cbn.
  - destruct p; try reflexivity. exfalso. eapply Hp. reflexivity.
  - reflexivity.
Qed.

Lemma support_files_path_not_a_string_witness :
  let w := Fixture.world None Fixture.vs2019_text Fixture.vs2019
             Fixture.all_succeed in
  (forall s, VNum "1" <> VStr s) /\
  semver.lt "5.4.1" "5.4.2" = Returns true /\
  setupSupportFiles (Fixture.swift "5.4.1") (VNum "1") w 0
  = ([], Throws "TypeError [ERR_INVALID_ARG_TYPE]: The path argument must be of type string").
Proof.
  intros w.
  assert (Hp : forall s, VNum "1" <> VStr s) by discriminate.
  split; [exact Hp |]. split; [reflexivity |].
  exact (proj1 (support_files_path_not_a_string w (Fixture.swift "5.4.1")
                  (VNum "1") 0 Hp) eq_refl).
Defined.

(** X21. When the version of the package is not a semantic version, the
    exception of [semver.lt] leaves [setupSupportFiles] and no process is
    started. *)
Theorem support_files_invalid_version :
  forall w pkg (vsInstallPath : value) t err,
    semver.parse (Package.version pkg) = Throws err ->
    setupSupportFiles pkg vsInstallPath w t = ([], Throws err).
Proof.
  intros w pkg p t err Hp.
  unfold setupSupportFiles, bind, lift, semver.lt. rewrite Hp. reflexivity.
Qed.

Lemma support_files_invalid_version_witness :
  let w := Fixture.world None Fixture.vs2019_text Fixture.vs2019
             Fixture.all_succeed in
  semver.parse "nightly" = Throws "TypeError: Invalid Version" /\
  setupSupportFiles (Fixture.swift "nightly") (VStr Fixture.vs_path) w 0
  = ([], Throws "TypeError: Invalid Version").
Proof.
  intros w. split; [reflexivity |].
  exact (support_files_invalid_version w (Fixture.swift "nightly")
           (VStr Fixture.vs_path) 0 _ eq_refl).
Defined.

(** X22. When there is no location to look at ([VSWHERE_PATH] not given, the
    tool not on the search path, [ProgramFiles(x86)] not set), [path.join]
    is given [undefined] and throws a [TypeError]: the search of the path is
    the only event, no existence is tested, nothing is marked failed, and
    the exception leaves [setupRequiredTools]. *)
Theorem query_tool_without_location :
  forall w pkg t,
    vswhere_location w t = None ->
    let tr := fst (getVsToolsPath w t) in
    let e := "TypeError [ERR_INVALID_ARG_TYPE]: The path argument must be of type string" in
    (exists err, tr = [Which "vswhere" (Throws err)]) /\
    snd (getVsToolsPath w t) = Throws e /\
    setupRequiredTools pkg w t = (tr, Throws e).
Proof.
  intros w pkg t Hloc tr e.
  assert (H : (exists err, tr = [Which "vswhere" (Throws err)]) /\
              snd (getVsToolsPath w t) = Throws e).
  { subst tr e. revert Hloc.
    unfold vswhere_location, getVsToolsPath, bind, try_catch. cbn.
    destruct (given (env w "VSWHERE_PATH")) eqn:Hg; cbn.
    - destruct (env w "VSWHERE_PATH") as [dir |]; [| discriminate Hg].
      discriminate.
    - destruct (which_ w t "vswhere") as [q | err]; cbn; [discriminate |].
      destruct (env w "ProgramFiles(x86)") as [pf |]; cbn; [discriminate |].
      intros _. split; [exists err |]; reflexivity. }
  destruct H as [Htr Hthrow]. repeat split; try assumption.
  unfold setupRequiredTools. apply bind_throws.
  rewrite <- Hthrow. subst tr. apply surjective_pairing.
Qed.

Lemma query_tool_without_location_witness :
  let w := with_env
             (Fixture.world None Fixture.vs2019_text Fixture.vs2019
                Fixture.all_succeed)
             (fun _ => None) in
  let e := "TypeError [ERR_INVALID_ARG_TYPE]: The path argument must be of type string" in
  vswhere_location w 0 = None /\
  snd (getVsToolsPath w 0) = Throws e /\
  setupRequiredTools (Fixture.swift "5.5.0") w 0
  = (fst (getVsToolsPath w 0), Throws e).
Proof.
  intros w e. split; [reflexivity |].
  exact (proj2 (query_tool_without_location w (Fixture.swift "5.5.0") 0 eq_refl)).
Defined.

(** X23. When [VSWHERE_PATH] is set to a non-empty directory,
    [getVsToolsPath] writes it to the debug log, does not search the path,
    and tests the existence of [vswhere.exe] in that directory. *)
Theorem override_skips_search :
  forall w t dir,
    env w "VSWHERE_PATH" = Some dir ->
    dir <> EmptyString ->
    let tr := fst (getVsToolsPath w t) in
    hd_error tr = Some (CoreDebug ("Using given vswhere-path: " ++ dir)) /\
    Forall (fun e => is_which e = false) tr /\
    first_seen tr
    = Some (join_ w [dir; "vswhere.exe"],
            existsSync_ w (S t) (join_ w [dir; "vswhere.exe"])).
Proof.
  intros w t dir Henv Hdir tr. subst tr.
  unfold getVsToolsPath, bind, try_catch. cbn. rewrite Henv.
  assert (Hg : given (Some dir) = true).
  { unfold given. apply negb_true_iff, String.eqb_neq. exact Hdir. }
  rewrite Hg. cbn.
  match goal with |- context [existsSync_ ?w ?t ?p] =>
    destruct (existsSync_ w t p) end; cbn;
    repeat split; repeat constructor.
Qed.

Lemma override_skips_search_witness :
  let w := with_env
             (Fixture.world None Fixture.vs2019_text Fixture.vs2019
                Fixture.all_succeed)
             (fun name => if String.eqb name "VSWHERE_PATH"
                          then Some "D:\tools" else None) in
  let tr := fst (getVsToolsPath w 0) in
  env w "VSWHERE_PATH" = Some "D:\tools" /\
  "D:\tools" <> EmptyString /\
  hd_error tr = Some (CoreDebug ("Using given vswhere-path: " ++ "D:\tools")) /\
  Forall (fun e => is_which e = false) tr /\
  first_seen tr = Some ("D:\tools\vswhere.exe", true).
Proof.
  intros w tr. split; [reflexivity |].
  assert (Hd : "D:\tools" <> EmptyString) by discriminate.
  split; [exact Hd |].
  exact (override_skips_search w 0 "D:\tools" eq_refl Hd).
Defined.

(** ** The earlier revision ([unnamed/part_001]) *)

(** X24. The earlier revision of the lookup looks at the same location [p]
    and returns the pair of [p] and [vs_installer.exe] beside it exactly
    when both files exist; otherwise it marks the run failed with the
    message that names both files and throws. The second file is not tested
    when the first is missing. *)
Theorem earlier_lookup_needs_both_tools :
  forall w t p,
    vswhere_location w t = Some p ->
    let tr := fst (Earlier.getVsWherePath w t) in
    let engine := join_ w [dirname_ w p; "vs_installer.exe"] in
    (snd (Earlier.getVsWherePath w t) = Returns (Earlier.mk p engine) /\
     tests tr = [(p, true); (engine, true)] /\
     marked_failed tr = false)
    \/
    (snd (Earlier.getVsWherePath w t) = Throws "Error" /\
     last tr (CoreDebug EmptyString)
     = CoreSetFailed
         "Action requires the path to where vswhere.exe and vs_installer.exe exists" /\
     (tests tr = [(p, false)] \/ tests tr = [(p, true); (engine, false)])).
Proof.
  intros w t p Hloc tr engine. subst tr engine. revert Hloc.
  unfold vswhere_location, Earlier.getVsWherePath, bind, try_catch. cbn.
  destruct (given (env w "VSWHERE_PATH")) eqn:Hg; cbn.
  - destruct (env w "VSWHERE_PATH") as [dir |]; [| discriminate Hg]. cbn.
    intros H; injection H as <-.
    repeat run_step; [left | right | right]; repeat split; auto.
  - destruct (which_ w t "vswhere") as [q | e]; cbn.
    + intros H; injection H as <-.
      repeat run_step; [left | right | right]; repeat split; auto.
    + destruct (env w "ProgramFiles(x86)") as [pf |]; cbn; [| discriminate].
      intros H; injection H as <-.
      repeat run_step; [left | right | right]; repeat split; auto.
Qed.

Lemma earlier_lookup_needs_both_tools_witness :
  let w := with_existsSync
             (Fixture.world None Fixture.vs2019_text Fixture.vs2019
                Fixture.all_succeed)
             (fun _ p => String.eqb p Fixture.vswhere) in
  let tr := fst (Earlier.getVsWherePath w 0) in
  let engine :=
    "C:\Program Files (x86)\Microsoft Visual Studio\Installer\vs_installer.exe" in
  vswhere_location w 0 = Some Fixture.vswhere /\
  snd (Earlier.getVsWherePath w 0) = Throws "Error" /\
  tests tr = [(Fixture.vswhere, true); (engine, false)].
Proof.
  intros w tr engine. split; [reflexivity |].
  destruct (earlier_lookup_needs_both_tools w 0 Fixture.vswhere eq_refl)
    as [[H _] | [H1 [_ [H2 | H2]]]].
  - discriminate H.
  - discriminate H2.
  - split; [exact H1 | exact H2].
Defined.

Lemma feed_cons {V : Type} (listeners : chunk -> V -> M V) c cs s :
  feed listeners (c :: cs) s
  = bind (listeners c s) (fun s' => feed listeners cs s').
Proof. reflexivity. Qed.

Lemma last_cons_default {A : Type} (l : list A) :
  forall x d, last (x :: l) d = last l x.
Proof.
  induction l as [| y l IH]; intros x d; [reflexivity |].
  change (last (x :: y :: l) d) with (last (y :: l) d).
  rewrite !IH. reflexivity.
Qed.

Lemma feed_path_listeners :
  forall cs vsInstallPath w t,
    feed Earlier.path_listeners cs vsInstallPath w t
    = (map (fun data => CoreDebug ("Found installation path: " ++ trim data))
         (stdout_chunks cs),
       Returns (last (map trim (stdout_chunks cs)) vsInstallPath)).
Proof.
  induction cs as [| c cs IH]; intros s w t; [reflexivity |].
  destruct c as [data | data]; rewrite feed_cons; cbn [stdout_chunks map].
  - unfold bind at 1. unfold Earlier.path_listeners, core.debug, emit, bind, ret.
    cbn -[String.append feed trim last]. rewrite IH. cbn [fst snd].
    f_equal. f_equal. symmetry. apply last_cons_default.
  - unfold bind at 1. unfold Earlier.path_listeners, ret.
    cbn -[String.append feed trim last]. rewrite IH. reflexivity.
Qed.

(** X25. With the listener of the earlier revision, [exec] keeps the last
    chunk of the standard output, trimmed, and the initial value when there
    is none: every chunk replaces the one before, and each is written to the
    debug log. The standard error is dropped. *)
Theorem earlier_listener_keeps_last_chunk :
  forall w t commandLine args verbatim vsInstallPath,
    let r := exec_ w t commandLine args verbatim in
    exec commandLine args verbatim Earlier.path_listeners vsInstallPath w t
    = (Exec commandLine args verbatim r
       :: map (fun data => CoreDebug ("Found installation path: " ++ trim data))
            (stdout_chunks (output r)),
       match status r with
       | Returns code =>
           Returns (code, last (map trim (stdout_chunks (output r))) vsInstallPath)
       | Throws e => Throws e
       end).
Proof.
  intros w t commandLine args verbatim s r.
  unfold exec. fold r. rewrite feed_path_listeners. cbn [fst snd].
  destruct (status r); reflexivity.
Qed.

Lemma earlier_lookup_locating :
  emits (fun e => locating e = true) Earlier.getVsWherePath.
Proof.
  unfold Earlier.getVsWherePath, process.env, core.debug, core.setFailed,
    io.which, fs.existsSync, path.dirname.
  emits_all; reflexivity.
Qed.

Lemma earlier_lookup_returns_clean w t vs :
  snd (Earlier.getVsWherePath w t) = Returns vs ->
  marked_failed (fst (Earlier.getVsWherePath w t)) = false.
Proof.
  unfold Earlier.getVsWherePath, bind, try_catch. cbn.
  destruct (given (env w "VSWHERE_PATH")); cbn.
  - destruct (env w "VSWHERE_PATH"); cbn; [| discriminate].
    repeat run_step; first [reflexivity | discriminate].
  - destruct (which_ w t "vswhere"); cbn.
    + repeat run_step; first [reflexivity | discriminate].
    + destruct (env w "ProgramFiles(x86)"); cbn; [| discriminate].
      repeat run_step; first [reflexivity | discriminate].
Qed.

Lemma found_paths_locating l :
  Forall (fun e => locating e = true)
    (map (fun data => CoreDebug ("Found installation path: " ++ trim data)) l).
Proof. induction l; simpl; constructor; auto. Qed.

Lemma found_paths_clean l :
  marked_failed
    (map (fun data => CoreDebug ("Found installation path: " ++ trim data)) l)
  = false.
Proof. induction l; simpl; auto. Qed.

Lemma first_output_app a b :
  first_exit a = None -> first_output (a ++ b) = first_output b.
Proof.
  induction a as [| e a IH]; [reflexivity |].
  destruct e; simpl; try exact IH. discriminate.
Qed.

(** X26. The earlier revision of [setupRequiredTools] tests no exit code:
    when [exec] resolves for the query and for the modify engine, whatever
    the codes it resolves with, that revision returns with the run not
    marked failed. The engine it starts is the
    [vs_installer.exe] of the lookup, asked to modify the installation at
    the last trimmed chunk of the query's output. *)
Theorem earlier_provisioning_ignores_exit_codes :
  forall w pkg t c1 c2,
    let tr := fst (Earlier.setupRequiredTools pkg w t) in
    exits tr = [Returns c1; Returns c2] ->
    snd (Earlier.setupRequiredTools pkg w t) = Returns tt /\
    marked_failed tr = false /\
    exists vs chunks,
      snd (Earlier.getVsWherePath w t) = Returns vs /\
      first_output tr = Some chunks /\
      started tr
      = [ (quoted (Earlier.vswhere vs)
           ++ " -products * -property installationPath -latest -version "
           ++ quoted "[16,17)", [], false);
          (quoted (Earlier.vsinstaller vs)
           ++ " modify  --installPath "
           ++ quoted (last (map trim (stdout_chunks chunks)) EmptyString)
           ++ " Microsoft.VisualStudio.Component.VC.Tools.x86.x64 --add "
           ++ quoted "Microsoft.VisualStudio.Component.Windows10SDK.17763"
           ++ " --quiet", [], false) ].
Proof.
  intros w pkg t c1 c2 tr. subst tr.
  pose proof (earlier_lookup_locating w t) as Hloc.
  pose proof (earlier_lookup_returns_clean w t) as Hclean.
  destruct (Earlier.setupRequiredTools pkg w t) as [tr r] eqn:Hrun.
  cbn [fst snd]. intros H1. revert Hrun.
  unfold Earlier.setupRequiredTools. unfold bind at 1.
  destruct (Earlier.getVsWherePath w t) as [d [vs | e]]; cbn [fst snd] in *.
  - specialize (Hclean _ eq_refl).
    pose proof (locating_started _ Hloc) as Hst.
    apply locating_facts in Hloc. destruct Hloc as [Hx [Hfe [Hfs Hreg]]].
    unfold bind, exec, exec0, lift. cbn. rewrite !feed_path_listeners. cbn.
    match goal with |- context [exec_ ?w ?t ?c ?a ?v] =>
      destruct (exec_ w t c a v) as [out [code | e]] eqn:Hq end; cbn.
    + match goal with |- context [exec_ ?w ?t ?c ?a ?v] =>
        destruct (exec_ w t c a v) as [out' [code' | e']] eqn:Hm end; cbn.
      * intros Hrun; injection Hrun as <- <-.
        split; [reflexivity |]. split.
        { rewrite marked_failed_app, Hclean. cbn.
          rewrite marked_failed_app, found_paths_clean. reflexivity. }
        exists vs, out. split; [reflexivity |]. split.
        { rewrite first_output_app by assumption. reflexivity. }
        rewrite started_app, Hst. cbn. rewrite started_app.
        rewrite (locating_started _ (found_paths_locating _)). reflexivity.
      * intros Hrun; injection Hrun as <- <-.
        rewrite exits_app, Hx in H1. cbn in H1. rewrite exits_app in H1.
        rewrite (proj1 (locating_facts _ (found_paths_locating _))) in H1.
        discriminate H1.
    + intros Hrun; injection Hrun as <- <-.
      rewrite exits_app, Hx in H1. cbn in H1.
      rewrite (proj1 (locating_facts _ (found_paths_locating _))) in H1.
      discriminate H1.
  - intros Hrun; injection Hrun as <- <-. apply locating_facts in Hloc.
    rewrite (proj1 Hloc) in H1. discriminate.
Qed.

Lemma earlier_provisioning_ignores_exit_codes_witness :
  let w := Fixture.world None Fixture.vs2019_text Fixture.vs2019
             Fixture.all_succeed in
  let tr := fst (Earlier.setupRequiredTools (Fixture.swift "5.5.0") w 0) in
  exits tr = [Returns 0%Z; Returns 0%Z] /\
  snd (Earlier.setupRequiredTools (Fixture.swift "5.5.0") w 0) = Returns tt /\
  marked_failed tr = false.
Proof.
  intros w tr. split; [reflexivity |].
  pose proof (earlier_provisioning_ignores_exit_codes w (Fixture.swift "5.5.0")
                0 0%Z 0%Z eq_refl) as H.
  cbv zeta in H. destruct H as [H1 [H2 _]]. split; assumption.
Defined.

(** X27. The earlier revision of [install] registers the binary directory
    whenever [exec] resolves for the installer, whatever the code it
    resolves with and whether or not the directory exists: that code and the
    answer of the existence test, made on the path under [C:], are written
    to the log, the
    run is not marked failed, and no key is set up and no signature verified
    in the run. *)
Theorem earlier_install_registers_whatever_the_outcome :
  forall w version system code,
    let tr := trace_of (Earlier.install version system) w in
    first_exit tr = Some (Returns code) ->
    exists present,
      first_seen tr
      = Some ("C:\Library\Developer\Toolchains\unknown-Asserts-development.xctoolchain\usr\bin",
              present) /\
      In (CoreInfo ("exit code " ++ string_of_Z code
                    ++ " and result " ++ toString (VBool present)
                    ++ " and sysdrive: " ++ systemDrive w)) tr /\
      registered tr
      = [join_ w [systemDrive w; "Library"; "Developer"; "Toolchains";
                  "unknown-Asserts-development.xctoolchain"; "usr\bin"]] /\
      result_of (Earlier.install version system) w = Returns tt /\
      marked_failed tr = false /\
      Forall (fun e => is_verify e = false /\ is_keys e = false) tr.
Proof.
  intros w version system code tr. subst tr. unfold trace_of, result_of.
  destruct (run (Earlier.install version system) w) as [tr r] eqn:Hrun.
  cbn [fst snd]. revert Hrun.
  unfold run, Earlier.install, systemDrive. cbn.
  repeat run_step; units;
    intros Hrun; injection Hrun as <- <-; cbn;
    intros H; try discriminate H; injection H as <-.
  all: first [exists true; split; [reflexivity |] | exists false; split; [reflexivity |]].
  all: split; [cbn; tauto |].
  all: repeat split; repeat constructor.
Qed.

Lemma earlier_install_registers_whatever_the_outcome_witness :
  let w := with_existsSync
             (Fixture.world (Some "C:\cache\swift.exe") Fixture.vs2019_text
                Fixture.vs2019 Fixture.all_succeed)
             (fun _ _ => false) in
  let tr := trace_of (Earlier.install "5.5.0" Fixture.windows) w in
  first_exit tr = Some (Returns 0%Z) /\
  exists present,
    first_seen tr
    = Some ("C:\Library\Developer\Toolchains\unknown-Asserts-development.xctoolchain\usr\bin",
            present) /\
    In (CoreInfo ("exit code " ++ string_of_Z 0
                  ++ " and result " ++ toString (VBool present)
                  ++ " and sysdrive: " ++ systemDrive w)) tr /\
    registered tr
    = [join_ w [systemDrive w; "Library"; "Developer"; "Toolchains";
                "unknown-Asserts-development.xctoolchain"; "usr\bin"]] /\
    result_of (Earlier.install "5.5.0" Fixture.windows) w = Returns tt /\
    marked_failed tr = false /\
    Forall (fun e => is_verify e = false /\ is_keys e = false) tr.
Proof.
  intros w tr. split; [reflexivity |].
  exact (earlier_install_registers_whatever_the_outcome w "5.5.0"
           Fixture.windows 0%Z eq_refl).
Defined.

(** ** The first revision ([src/windows-install.ts], lines 1 to 106) *)

(** X28. The first revision of [install] starts the installer unverified:
    whenever [exec] resolves for the installer, whatever the code it
    resolves with, no key has been set up and no signature verified in the run, the one process
    started is the installer with [-q] as an argument of its own, no
    existence is tested, the directory registered is the text in which
    [%SystemDrive%] is not expanded, and the run is not marked failed. *)
Theorem oldest_install_runs_unverified :
  forall w version system code,
    let tr := trace_of (Oldest.install version system) w in
    first_exit tr = Some (Returns code) ->
    (exists swiftPath, started tr = [(quoted swiftPath, ["-q"], false)]) /\
    registered tr
    = ["%SystemDrive%\Library\Developer\Toolchains\unknown-Asserts-development.xctoolchain\usr\bin"] /\
    tests tr = [] /\
    result_of (Oldest.install version system) w = Returns tt /\
    marked_failed tr = false /\
    Forall (fun e => is_verify e = false /\ is_keys e = false) tr.
Proof.
  intros w version system code tr. subst tr. unfold trace_of, result_of.
  destruct (run (Oldest.install version system) w) as [tr r] eqn:Hrun.
  cbn [fst snd]. revert Hrun.
  unfold run, Oldest.install. cbn.
  repeat run_step; units;
    intros Hrun; injection Hrun as <- <-; cbn;
    intros H; try discriminate H; injection H as <-.
  all: split; [eexists; reflexivity |].
  all: repeat split; repeat constructor.
Qed.

(** X29. The first revision of the lookup tests the existence of the query
    tool at the same location, once; when the tool is missing it marks the
    run failed and returns [undefined] instead of throwing, and in both
    cases that revision's [setupRequiredTools] returns after the lookup,
    having started nothing. *)
Theorem oldest_lookup_marks_without_throwing :
  forall w pkg t p,
    vswhere_location w t = Some p ->
    let tr := fst (Oldest.getVsWherePath w t) in
    exists present,
      tests tr = [(p, present)] /\
      Oldest.setupRequiredTools pkg w t = (tr, Returns tt) /\
      if (present : bool) then
        snd (Oldest.getVsWherePath w t) = Returns (Some p) /\
        marked_failed tr = false
      else
        snd (Oldest.getVsWherePath w t) = Returns None /\
        last tr (CoreDebug EmptyString)
        = CoreSetFailed "setup-msbuild requires the path to where vswhere.exe exists".
Proof.
  intros w pkg t p Hloc tr. subst tr. revert Hloc.
  unfold Oldest.setupRequiredTools. unfold bind at 1.
  unfold vswhere_location, Oldest.getVsWherePath, bind, try_catch. cbn.
  destruct (given (env w "VSWHERE_PATH")) eqn:Hg; cbn.
  - destruct (env w "VSWHERE_PATH") as [dir |]; [| discriminate Hg]. cbn.
    intros H; injection H as <-.
    run_step; [exists true | exists false]; cbn; rewrite ?app_nil_r;
      repeat split.
  - destruct (which_ w t "vswhere") as [q | e]; cbn.
    + intros H; injection H as <-.
      run_step; [exists true | exists false]; cbn; rewrite ?app_nil_r;
        repeat split.
    + destruct (env w "ProgramFiles(x86)") as [pf |]; cbn; [| discriminate].
      intros H; injection H as <-.
      run_step; [exists true | exists false]; cbn; rewrite ?app_nil_r;
        repeat split.
Qed.

Lemma oldest_install_runs_unverified_witness :
  let w := Fixture.world None Fixture.vs2019_text Fixture.vs2019
             Fixture.all_succeed in
  let tr := trace_of (Oldest.install "5.5.0" Fixture.windows) w in
  first_exit tr = Some (Returns 0%Z) /\
  registered tr
  = ["%SystemDrive%\Library\Developer\Toolchains\unknown-Asserts-development.xctoolchain\usr\bin"] /\
  tests tr = [] /\
  result_of (Oldest.install "5.5.0" Fixture.windows) w = Returns tt /\
  marked_failed tr = false /\
  Forall (fun e => is_verify e = false /\ is_keys e = false) tr.
Proof.
  intros w tr. split; [reflexivity |].
  exact (proj2 (oldest_install_runs_unverified w "5.5.0" Fixture.windows 0%Z
                  eq_refl)).
Defined.

Lemma oldest_lookup_marks_without_throwing_witness :
  let w := with_existsSync
             (Fixture.world None Fixture.vs2019_text Fixture.vs2019
                Fixture.all_succeed)
             (fun _ _ => false) in
  let tr := fst (Oldest.getVsWherePath w 0) in
  vswhere_location w 0 = Some Fixture.vswhere /\
  tests tr = [(Fixture.vswhere, false)] /\
  snd (Oldest.getVsWherePath w 0) = Returns None /\
  Oldest.setupRequiredTools (Fixture.swift "5.5.0") w 0 = (tr, Returns tt).
Proof.
  intros w tr. split; [reflexivity |].
  destruct (oldest_lookup_marks_without_throwing w (Fixture.swift "5.5.0") 0
              Fixture.vswhere eq_refl) as [present [H1 [H2 H3]]].
  assert (Hp : present = false) by (cbv in H1; congruence).
  subst present. destruct H3 as [H3 _]. repeat split; assumption.
Defined.

(** ** What the installer writes *)

(** X30. The listeners [install] builds are not passed to [exec]: on
    [win32], whatever the installer writes to its standard output or
    standard error, no call of [core.info] or [core.error] is made in the
    run before the provisioner starts, and the run is that silent part
    followed by nothing or by the run of [setupRequiredTools]. *)
Theorem installer_output_is_not_logged :
  forall w version system,
    platform w = "win32" ->
    let tr := trace_of (install version system) w in
    exists pre post,
      tr = (pre ++ post)%list /\
      Forall (fun e => is_output e = false) pre /\
      (post = [] \/
       exists pkg, post = fst (setupRequiredTools pkg w (length pre))).
Proof.
  intros w version system Hp tr. subst tr. unfold trace_of.
  destruct (run (install version system) w) as [tr r] eqn:Hrun.
  cbn [fst snd]. revert Hrun. unfold run, install. cbn. rewrite Hp. cbn.
  repeat run_step; units;
    intros Hrun; injection Hrun as <- _; cbn.
  all: try (exists (@nil event), (@nil event); repeat split;
            [constructor | left; reflexivity]).
  all: try match goal with
       | |- context [fst (setupRequiredTools _ _ _)] =>
           match goal with
           | |- context [CacheFind ?a ?b ?c :: ?r] =>
               let p := prefix_of (CacheFind a b c :: r) in
               exists p; eexists; split; [reflexivity |];
               split; [repeat constructor | right; eexists; reflexivity]
           end
       end.
  all: match goal with
       | |- exists pre post, ?l = _ /\ _ =>
           exists l, (@nil event); split; [symmetry; apply app_nil_r |];
           split; [repeat constructor | left; reflexivity]
       end.
Qed.

Lemma installer_output_is_not_logged_witness :
  let w := with_exec
             (Fixture.world (Some "C:\cache\swift.exe") Fixture.vs2019_text
                Fixture.vs2019 Fixture.all_succeed)
             (fun _ => mk_exec_result
                         [Stdout "Installing Swift"; Stderr "error 1603"]
                         (Returns 1603%Z)) in
  let tr := trace_of (install "5.5.0" Fixture.windows) w in
  platform w = "win32" /\
  exists pre post,
    tr = (pre ++ post)%list /\
    Forall (fun e => is_output e = false) pre /\
    (post = [] \/
     exists pkg, post = fst (setupRequiredTools pkg w (length pre))).
Proof.
  intros w tr. split; [reflexivity |].
  exact (installer_output_is_not_logged w "5.5.0" Fixture.windows eq_refl).
Defined.
